(** * Elitemoney Pro Manager: aggregation engine and fail-safe endpoints

    A shallow embedding of [src/main.py]: the cash-flow aggregation
    ([compute_cash_flow]), the social balance netting
    ([compute_social_balances]), the summary dispatcher
    ([workspace_summary]) and the two pseudo-AI endpoints
    ([receipt_scan], [financial_advisor]).

    Python's [float] is IEEE 754 binary64.  The two compute functions are
    written once, over a numeric interface [Num], and read at two instances:
    [binary64] (Rocq's primitive floats, what the program runs on) and
    [exact] (the rationals [Q], arithmetic without rounding). *)

From Stdlib Require Import List Permutation String Ascii Bool ZArith QArith.
From Stdlib Require Import Lia Lqa.
From Stdlib Require Import Floats.
Import ListNotations.

Set Implicit Arguments.
Set Warnings "-inexact-float".

Local Open Scope string_scope.

(** ** Numbers *)

(** The operations the source applies to amounts, shares and balances. *)
Class Num (F : Type) : Type := {
  zero : F;                 (* the literals [0] and [0.0] *)
  add : F -> F -> F;        (* [x + y] *)
  sub : F -> F -> F;        (* [x - y] *)
  mul : F -> F -> F;        (* [x * y] *)
  div : F -> F -> F;        (* [x / y] *)
  leb : F -> F -> bool;     (* [x <= y] *)
  of_len : nat -> F;        (* [len(l)] used as an operand of [/] *)
  py_sum : list F -> F      (* the builtin [sum(xs)], which starts from [0] *)
}.

(** What the program runs on.  [of_len] is exact below 2^53, far above the
    length of any list the program can hold.  [py_sum] adds from left to
    right, which is what CPython's [sum] does up to 3.11; from 3.12 on it
    also carries a correction term for floats, which can change the last
    bits of a sum that is not exact.  The properties stated over every [Num]
    hold for either; the binary64 examples are sums on which the two
    agree. *)
#[export] Instance binary64 : Num float := {|
  zero := 0%float;
  add := PrimFloat.add;
  sub := PrimFloat.sub;
  mul := PrimFloat.mul;
  div := PrimFloat.div;
  leb := PrimFloat.leb;
  of_len := fun n => PrimFloat.of_uint63 (Uint63.of_Z (Z.of_nat n));
  py_sum := fun xs => fold_left PrimFloat.add xs 0%float
|}.

(** Arithmetic without rounding. *)
#[export] Instance exact : Num Q := {|
  zero := 0%Q;
  add := Qplus;
  sub := Qminus;
  mul := Qmult;
  div := Qdiv;
  leb := Qle_bool;
  of_len := fun n => inject_Z (Z.of_nat n);
  py_sum := fun xs => fold_left Qplus xs 0%Q
|}.

(** ** Strings and optional fields *)

(** [d.get(k) == s] for a field that holds a string when present. *)
Definition field_is (f : option string) (s : string) : bool :=
  match f with
  | Some v => String.eqb v s
  | None => false
  end.

(** [str.lower()] on the ASCII range, which is where every mode the
    dispatcher tests for lives; other bytes are left as they are. *)
Definition lower_ascii (c : ascii) : ascii :=
  let n := nat_of_ascii c in
  if ((65 <=? n) && (n <=? 90))%nat then ascii_of_nat (n + 32) else c.

Fixpoint lower (s : string) : string :=
  match s with
  | EmptyString => EmptyString
  | String c r => String (lower_ascii c) (lower r)
  end.

(** Truthiness of an optional string: [None] and [""] are falsy. *)
Definition truthy (f : option string) : bool :=
  match f with
  | Some EmptyString => false
  | Some _ => true
  | None => false
  end.

(** ** Records

    The engine receives documents as dicts and reads them with [.get]:
    every field may be absent, which is [None] here.  A present field
    holds a value of the type [schemas.py] gives it.

    [create_transaction] stores its optional fields as they come, and they
    default to Python's [None].  For [direction], [payer_id],
    [split_method], [beneficiaries] and [status] a key that holds [None]
    and a key that is absent are read alike (by [== "..."], by truthiness,
    by [or []]), so [None] here stands for both.  [date] is read with a
    default and then compared, which tells the two apart: [None] is the
    absent key, [Some None] the key that holds [None], and [Some (Some d)]
    a datetime. *)

Record Beneficiary (F : Type) : Type := {
  user_id : option string;
  share : option F
}.

Record Transaction (F : Type) : Type := {
  workspace_id : option string;
  type : option string;
  amount : option F;
  date : option (option Z);      (* microseconds since the epoch, UTC *)
  status : option string;
  direction : option string;
  payer_id : option string;
  split_method : option string;
  beneficiaries : option (list (Beneficiary F))
}.

Record CashFlow (F : Type) : Type := {
  income : F;
  expense : F;
  net : F
}.

(** ** The balance map

    A Python dict keeps its keys in insertion order: assigning to a key
    that is present overwrites in place, assigning to a new key appends.
    Keys are what [.get("user_id")] and [.get("payer_id")] return. *)

Definition key : Type := option string.

Definition key_eqb (a b : key) : bool :=
  match a, b with
  | Some x, Some y => String.eqb x y
  | None, None => true
  | _, _ => false
  end.

Section Engine.

Context {F : Type} {N : Num F}.

Definition balance_map : Type := list (key * F).

(** [balances.get(k, 0.0)] *)
Fixpoint get0 (k : key) (m : balance_map) : F :=
  match m with
  | [] => zero
  | (k', v) :: r => if key_eqb k k' then v else get0 k r
  end.

(** [balances[k] = v] *)
Fixpoint set (k : key) (v : F) (m : balance_map) : balance_map :=
  match m with
  | [] => [(k, v)]
  | (k', v') :: r => if key_eqb k k' then (k', v) :: r else (k', v') :: set k v r
  end.

(** [k in balances] *)
Fixpoint has_key (k : key) (m : balance_map) : bool :=
  match m with
  | [] => false
  | (k', _) :: r => key_eqb k k' || has_key k r
  end.

(** [sum(balances.values())] *)
Definition total (m : balance_map) : F := py_sum (map snd m).

(** ** Cash flow *)

(** [t.get("amount", 0)] *)
Definition amount_or_0 (t : Transaction F) : F :=
  match amount t with
  | Some a => a
  | None => zero
  end.

Definition compute_cash_flow (transactions : list (Transaction F)) : CashFlow F :=
  let income :=
    py_sum (map amount_or_0
           (filter (fun t => field_is (direction t) "income") transactions)) in
  let expense :=
    py_sum (map amount_or_0
           (filter (fun t => field_is (direction t) "expense") transactions)) in
  {| income := income; expense := expense; net := sub income expense |}.

(** ** Social balance netting *)

(** [float(b.get("share", 0))] *)
Definition share_or_0 (b : Beneficiary F) : F :=
  match share b with
  | Some s => s
  | None => zero
  end.

(** [t.get("beneficiaries") or []] *)
Definition beneficiaries_or_nil (t : Transaction F) : list (Beneficiary F) :=
  match beneficiaries t with
  | Some l => l
  | None => []
  end.

(** One turn of the percentage loop:
    [balances[uid] = balances.get(uid, 0.0) - amount * share_pct]. *)
Definition debit_share (amt : F) (balances : balance_map) (b : Beneficiary F)
  : balance_map :=
  let uid := user_id b in
  let share_amt := mul amt (share_or_0 b) in
  set uid (sub (get0 uid balances) share_amt) balances.

(** One turn of the equal loop:
    [balances[uid] = balances.get(uid, 0.0) - per_head]. *)
Definition debit_head (per_head : F) (balances : balance_map) (b : Beneficiary F)
  : balance_map :=
  let uid := user_id b in
  set uid (sub (get0 uid balances) per_head) balances.

(** The guard of the loop body: the record is netted when it is social, has
    a truthy payer, an amount that is not [<= 0] and a non-empty list of
    beneficiaries. *)
Definition processed (t : Transaction F) : bool :=
  field_is (type t) "social"
  && negb (negb (truthy (payer_id t))
           || leb (amount_or_0 t) zero
           || match beneficiaries_or_nil t with [] => true | _ => false end).

(** The body of the [for t in transactions] loop. *)
Definition social_step (balances : balance_map) (t : Transaction F)
  : balance_map :=
  if negb (field_is (type t) "social") then balances else
  let payer := payer_id t in
  let amt := amount_or_0 t in
  let bens := beneficiaries_or_nil t in
  if negb (truthy payer)
     || leb amt zero
     || match bens with [] => true | _ => false end
  then balances else
  let balances := set payer (get0 payer balances) balances in
  if field_is (split_method t) "percentage" then
    let balances := fold_left (debit_share amt) bens balances in
    set payer (add (get0 payer balances) amt) balances
  else
    let per_head := div amt (of_len (List.length bens)) in
    let balances := fold_left (debit_head per_head) bens balances in
    set payer (add (get0 payer balances) amt) balances.

Definition compute_social_balances (transactions : list (Transaction F))
  : balance_map :=
  fold_left social_step transactions [].

End Engine.

Arguments balance_map F : clear implicits.
Arguments total {F N} m : simpl never.

(** ** Collaborators and exceptions

    What a call can do besides returning.  The handlers of the endpoints
    tell three classes of exception apart: [HTTPException] (by status
    code), any other subclass of [Exception], and an exception outside the
    [Exception] hierarchy (a cancelled [await], a keyboard interrupt), which
    no [except Exception] clause catches. *)

Inductive exn : Type :=
| HTTPException (status_code : Z) (detail : string)
| OtherException (name : string)
| NonException (name : string).

Inductive outcome (A : Type) : Type :=
| Returns (a : A)
| Raises (e : exn).

Arguments Returns {A} a.
Arguments Raises {A} e.

(** [os.getenv("SIMULATE_AI_QUOTA", "false").lower() == "true"] *)
Definition simulate_quota (env : option string) : bool :=
  String.eqb (lower (match env with Some v => v | None => "false" end)) "true".

(** [timedelta(days=30)], in microseconds. *)
Definition thirty_days : Z := 30 * 86400 * 1000000.

Definition advice_on_track : string :=
  "You're on track. Keep expenses under 80% of income.".
Definition advice_cut : string :=
  "Spending exceeds income. Consider cutting non-essentials.".
Definition advice_limit : string :=
  "Limit Reached: Try to save 20% of your income this month.".

Inductive Summary (F : Type) : Type :=
| CompanySummary (cash_flow : CashFlow F) (pending : F)
| SocialSummary (balances : balance_map F)
| HomeSummary (budget : CashFlow F).

Record AdvisorResponse (F : Type) : Type := {
  advisor_demo : bool;
  advice : string;
  net30 : option F           (* the key is absent from the demo payload *)
}.

(** [[t for t in fetched if t.get("date", since) >= since]]: the test is
    made on each record in turn; on a date that is [None] the comparison of
    [None] with a datetime raises [TypeError] and the comprehension stops
    there. *)
Fixpoint recent {F : Type} (since : Z) (fetched : list (Transaction F))
  : outcome (list (Transaction F)) :=
  match fetched with
  | [] => Returns []
  | t :: r =>
    match match date t with Some d => d | None => Some since end with
    | None => Raises (OtherException "TypeError")
    | Some d =>
      match recent since r with
      | Raises e => Raises e
      | Returns txns => Returns (if (d >=? since)%Z then t :: txns else txns)
      end
    end
  end.

Section Endpoints.

Context {F : Type} {N : Num F}.

(** [database.get_documents(collection, filter)]: the storage read.  The
    filter is either [{"workspace_id": w}] ([Some w]) or [{}] ([None]). *)
Variable get_documents : string -> option string -> outcome (list (Transaction F)).

Definition workspace_summary (workspace_id : string) (mode : option string)
  : outcome (Summary F) :=
  match get_documents "transaction" (Some workspace_id) with
  | Raises e => Raises e
  | Returns txns =>
    let mode :=
      match txns with
      | t :: _ => if negb (truthy mode) then type t else mode
      | [] => mode
      end in
    let mode := lower (match mode with
                       | Some m => if truthy mode then m else "home"
                       | None => "home"
                       end) in
    if String.eqb mode "company" then
      let cash := compute_cash_flow txns in
      let pending :=
        py_sum (map amount_or_0
                  (filter (fun t => field_is (status t) "Pending") txns)) in
      Returns (CompanySummary cash pending)
    else if String.eqb mode "social" then
      Returns (SocialSummary (compute_social_balances txns))
    else
      Returns (HomeSummary (compute_cash_flow txns))
  end.

(** The [try] block of [financial_advisor]; [now] is [datetime.utcnow()]. *)
Definition financial_advisor_try (env : option string) (now : Z)
    (workspace_id : option string) : outcome (AdvisorResponse F) :=
  if simulate_quota env then Raises (HTTPException 429 "Quota Exceeded") else
  let filter_q := if truthy workspace_id then workspace_id else None in
  let since := (now - thirty_days)%Z in
  match get_documents "transaction" filter_q with
  | Raises e => Raises e
  | Returns fetched =>
    match recent since fetched with
    | Raises e => Raises e
    | Returns txns =>
      let cash := compute_cash_flow txns in
      let insight :=
        if leb zero (net cash) then advice_on_track else advice_cut in
      Returns {| advisor_demo := false; advice := insight;
                 net30 := Some (net cash) |}
    end
  end.

(** [financial_advisor] with its two [except] clauses. *)
Definition financial_advisor (env : option string) (now : Z)
    (workspace_id : option string) : outcome (AdvisorResponse F) :=
  match financial_advisor_try env now workspace_id with
  | Returns r => Returns r
  | Raises (HTTPException status_code detail) =>
    if (status_code =? 429)%Z
    then Returns {| advisor_demo := true; advice := advice_limit; net30 := None |}
    else Raises (HTTPException status_code detail)
  | Raises (OtherException _) =>
    Returns {| advisor_demo := true; advice := advice_limit; net30 := None |}
  | Raises (NonException name) => Raises (NonException name)
  end.

End Endpoints.

(** ** Receipt scan *)

(** The upload as the endpoint sees it: its metadata and what
    [await file.read()] does. *)
Record UploadFile : Type := {
  filename : option string;
  content_type : option string;
  read : outcome (list Byte.byte)
}.

Record ReceiptResponse : Type := {
  merchant : string;
  receipt_amount : float;
  receipt_date : string;
  demo : bool;
  message : option string
}.

(** The [try] block of [receipt_scan]; [today] is
    [datetime.utcnow().date().isoformat()]. *)
Definition receipt_scan_try (env : option string) (today : string)
    (file : UploadFile) : outcome ReceiptResponse :=
  if simulate_quota env then Raises (HTTPException 429 "Quota Exceeded") else
  match read file with
  | Raises e => Raises e
  | Returns content =>
    Returns {| merchant := "Parsed Merchant"; receipt_amount := 42.5;
               receipt_date := today; demo := false; message := None |}
  end.

(** [receipt_scan] with its two [except] clauses. *)
Definition receipt_scan (env : option string) (today : string)
    (file : UploadFile) : outcome ReceiptResponse :=
  match receipt_scan_try env today file with
  | Returns r => Returns r
  | Raises (HTTPException status_code detail) =>
    if (status_code =? 429)%Z
    then Returns {| merchant := "Demo Store"; receipt_amount := 50.00;
                    receipt_date := today; demo := true;
                    message := Some "Quota exceeded - using demo data" |}
    else Raises (HTTPException status_code detail)
  | Raises (OtherException _) =>
    Returns {| merchant := "Demo Store"; receipt_amount := 50.00;
               receipt_date := today; demo := true;
               message := Some "AI unavailable - using demo data" |}
  | Raises (NonException name) => Raises (NonException name)
  end.

(** ** The specification's reading of the sums

    "The sum of [amount] over the records whose field is [v]": the sum of
    the amounts of the records that qualify, taken in order, a missing
    amount counting as 0; the other records are not part of the sum. *)

Section SpecSums.

Context {F : Type} {N : Num F}.

Definition amount_counted (t : Transaction F) : F :=
  match amount t with
  | Some a => a
  | None => zero
  end.

(** The amounts of the records that qualify, in the order of the records. *)
Fixpoint amounts_where (p : Transaction F -> bool)
    (ts : list (Transaction F)) : list F :=
  match ts with
  | [] => []
  | t :: r =>
    if p t then amount_counted t :: amounts_where p r else amounts_where p r
  end.

Definition sum_amount_where (p : Transaction F -> bool)
    (ts : list (Transaction F)) : F :=
  py_sum (amounts_where p ts).

Definition has_direction (d : string) (t : Transaction F) : bool :=
  match direction t with
  | Some v => String.eqb v d
  | None => false
  end.

Definition has_status (s : string) (t : Transaction F) : bool :=
  match status t with
  | Some v => String.eqb v s
  | None => false
  end.

(** "date >= now - 30 days, a record with no date field counting as exactly
    at the boundary, hence included".  A date that is [None] is no date to
    compare. *)
Definition in_last_30_days (now : Z) (t : Transaction F) : bool :=
  match date t with
  | Some (Some d) => (now - thirty_days <=? d)%Z
  | Some None => false
  | None => true
  end.

(** The record's [date] key holds [None]. *)
Definition null_date (t : Transaction F) : bool :=
  match date t with
  | Some None => true
  | _ => false
  end.

(** A record with one field replaced. *)
Definition with_amount (a : option F) (t : Transaction F) : Transaction F :=
  {| workspace_id := workspace_id t; type := type t; amount := a;
     date := date t; status := status t; direction := direction t;
     payer_id := payer_id t; split_method := split_method t;
     beneficiaries := beneficiaries t |}.

(** The sum of the shares of a record's beneficiaries, an absent share
    counting as 0. *)
Definition sum_of_shares (bens : list (Beneficiary F)) : F :=
  py_sum (map share_or_0 bens).

Definition with_beneficiaries (bens : list (Beneficiary F))
    (t : Transaction F) : Transaction F :=
  {| workspace_id := workspace_id t; type := type t; amount := amount t;
     date := date t; status := status t; direction := direction t;
     payer_id := payer_id t; split_method := split_method t;
     beneficiaries := Some bens |}.


(** Both loops over the beneficiaries are instances of one: subtract [d b]
    from the balance of [b]'s user. *)
Definition debit (d : Beneficiary F -> F) (m : balance_map F)
    (b : Beneficiary F) : balance_map F :=
  set (user_id b) (sub (get0 (user_id b) m) (d b)) m.

(** The balance of user [u] after a loop over the beneficiaries in which
    every turn that names [u] subtracts [d b] from it. *)
Fixpoint after_debits (u : key) (d : Beneficiary F -> F)
    (bens : list (Beneficiary F)) (bal : F) : F :=
  match bens with
  | [] => bal
  | b :: r =>
    after_debits u d r (if key_eqb u (user_id b) then sub bal (d b) else bal)
  end.

(** [u] is the [user_id] of one of the beneficiaries. *)
Definition listed (u : key) (bens : list (Beneficiary F)) : bool :=
  existsb (fun b => key_eqb u (user_id b)) bens.

End SpecSums.

(** What a loop over the beneficiaries takes out of the total, in exact
    arithmetic. *)
Fixpoint debited (d : Beneficiary Q -> Q) (bens : list (Beneficiary Q)) : Q :=
  match bens with
  | [] => 0
  | b :: r => d b + debited d r
  end.

(** ** The payloads the specification names *)

(** [{merchant: "Demo Store", amount: 50.00, date: today, demo: true,
    message: <reason>}] *)
Definition receipt_demo (today : string) (reason : string) : ReceiptResponse :=
  {| merchant := "Demo Store"; receipt_amount := 50;
     receipt_date := today; demo := true; message := Some reason |}.


Definition quota_message : string := "Quota exceeded - using demo data".
Definition generic_message : string := "AI unavailable - using demo data".

(** [{demo: true, advice: "Limit Reached: ..."}] *)
Definition advisor_fallback {F : Type} : AdvisorResponse F :=
  {| advisor_demo := true; advice := advice_limit; net30 := None |}.



(** A storage read that gives the same answer whatever it is asked. *)
Definition fixed_store {F : Type} (r : outcome (list (Transaction F)))
  : string -> option string -> outcome (list (Transaction F)) :=
  fun _ _ => r.

(** An upload whose read gives [r]. *)
Definition upload (name : string) (r : outcome (list Byte.byte)) : UploadFile :=
  {| filename := Some name; content_type := Some "image/png"; read := r |}.

(** ** Floats as the rationals they denote *)

(** The value of a finite float; infinities and NaN, which denote no
    rational, read as 0. *)
Definition exact_value (x : float) : Q :=
  match Prim2SF x with
  | S754_finite s m e =>
    ((if s then -1 else 1) * inject_Z (Z.pos m) * Qpower 2 e)%Q
  | _ => 0%Q
  end.

(** ** Sample records *)

Definition beneficiary {F : Type} (u : string) (s : option F) : Beneficiary F :=
  {| user_id := Some u; share := s |}.

(** A social record as [create_transaction] stores it. *)
Definition social_record {F : Type} (payer : string) (a : option F)
    (method : option string) (bens : list (Beneficiary F)) : Transaction F :=
  {| workspace_id := Some "trip"; type := Some "social"; amount := a;
     date := None; status := Some "Pending"; direction := None;
     payer_id := Some payer; split_method := method;
     beneficiaries := Some bens |}.

(** A company or home record. *)
Definition cash_record {F : Type} (kind : string) (a : option F)
    (d : option (option Z)) (st : string) (dir : option string)
  : Transaction F :=
  {| workspace_id := Some "acme"; type := Some kind; amount := a;
     date := d; status := Some st; direction := dir;
     payer_id := None; split_method := None; beneficiaries := None |}.

(** An income older than the window, a 29-day-old expense and an undated
    expense, fetched at [now]. *)
Definition sample_ledger (now : Z) : list (Transaction float) :=
  [ cash_record "home" (Some 1000%float)
      (Some (Some (now - 31 * 86400000000)%Z)) "Cleared" (Some "income");
    cash_record "home" (Some 50%float)
      (Some (Some (now - 29 * 86400000000)%Z)) "Cleared" (Some "expense");
    cash_record "home" (Some 10%float) None "Cleared" (Some "expense") ].

(** ** What one record charges, and the keys of a map *)

Section Charges.

Context {F : Type} {N : Num F}.

(** The keys of the dict, in insertion order. *)
Definition keys (m : balance_map F) : list key := map fst m.

(** The two facts every step of the netting keeps: the old keys stay in
    front, in order, and no key is held twice. *)
Definition extends (m m' : balance_map F) : Prop :=
  (exists more, keys m' = (keys m ++ more)%list)
  /\ (NoDup (keys m) -> NoDup (keys m')).

(** What a processed record subtracts at each turn of its loop over the
    beneficiaries: [amount * share] under the percentage split, [per_head]
    otherwise. *)
Definition charge (t : Transaction F) (b : Beneficiary F) : F :=
  if field_is (split_method t) "percentage"
  then mul (amount_or_0 t) (share_or_0 b)
  else div (amount_or_0 t) (of_len (List.length (beneficiaries_or_nil t))).

(** The record concerns user [u]: it is netted and [u] is its payer or one
    of its beneficiaries. *)
Definition involves (u : key) (t : Transaction F) : bool :=
  processed t
  && (key_eqb u (payer_id t) || listed u (beneficiaries_or_nil t)).

Definition with_split_method (s : option string) (t : Transaction F)
  : Transaction F :=
  {| workspace_id := workspace_id t; type := type t; amount := amount t;
     date := date t; status := status t; direction := direction t;
     payer_id := payer_id t; split_method := s;
     beneficiaries := beneficiaries t |}.

End Charges.

(** ** Netting in exact arithmetic *)

(** What the beneficiary entries that name [u] are charged in all. *)
Fixpoint owed_in (u : key) (d : Beneficiary Q -> Q)
    (bens : list (Beneficiary Q)) : Q :=
  match bens with
  | [] => 0
  | b :: r => (if key_eqb u (user_id b) then d b else 0) + owed_in u d r
  end.

(** What one record does to the balance of [u]: the amount if [u] paid,
    less what [u] is charged; nothing if the record is skipped. *)
Definition net_effect (u : key) (t : Transaction Q) : Q :=
  if processed t
  then (if key_eqb u (payer_id t) then amount_or_0 t else 0)
       - owed_in u (charge t) (beneficiaries_or_nil t)
  else 0.

Fixpoint netting (u : key) (ts : list (Transaction Q)) : Q :=
  match ts with
  | [] => 0
  | t :: r => net_effect u t + netting u r
  end.

(** By how much one record leaves the map off balance: [amount] less the
    shares handed out, for a netted percentage record; nothing otherwise. *)
Definition imbalance (t : Transaction Q) : Q :=
  if processed t && field_is (split_method t) "percentage"
  then amount_or_0 t - amount_or_0 t * sum_of_shares (beneficiaries_or_nil t)
  else 0.

Fixpoint total_imbalance (ts : list (Transaction Q)) : Q :=
  match ts with
  | [] => 0
  | t :: r => imbalance t + total_imbalance r
  end.

(** The spellings [SIMULATE_AI_QUOTA] can take to switch the quota on. *)
Definition quota_spellings : list string :=
  [ "true"; "truE"; "trUe"; "trUE"; "tRue"; "tRuE"; "tRUe"; "tRUE";
    "True"; "TruE"; "TrUe"; "TrUE"; "TRue"; "TRuE"; "TRUe"; "TRUE" ].

(** The mode the summary runs in: the one asked for, else the type of the
    first fetched record, else "home"; lowercased. *)
Definition mode_in_effect {F : Type} (mode : option string)
    (txns : list (Transaction F)) : string :=
  let chosen :=
    if truthy mode then mode
    else match txns with
         | t :: _ => if truthy (type t) then type t else None
         | [] => None
         end in
  match chosen with
  | Some m => lower m
  | None => "home"
  end.

(** * Properties *)

(** ** Keys and the balance map *)

Lemma key_eqb_eq (a b : key) : key_eqb a b = true <-> a = b.
Proof.
  destruct a as [x|], b as [y|]; simpl; split; intro H;
    try discriminate; try reflexivity.
  - apply String.eqb_eq in H. now subst.
  - injection H as ->. apply String.eqb_refl.
Qed.

Lemma key_eqb_refl (a : key) : key_eqb a a = true.
Proof. now apply key_eqb_eq. Qed.

Lemma key_eqb_neq (a b : key) : key_eqb a b = false <-> a <> b.
Proof.
  split.
  - intros H E. apply key_eqb_eq in E. congruence.
  - intro H. destruct (key_eqb a b) eqn:E; [|reflexivity].
    apply key_eqb_eq in E. contradiction.
Qed.

Lemma key_eqb_sym (a b : key) : key_eqb a b = key_eqb b a.
Proof.
  destruct (key_eqb a b) eqn:E; symmetry.
  - apply key_eqb_eq in E. subst. apply key_eqb_refl.
  - apply key_eqb_neq in E. apply key_eqb_neq. congruence.
Qed.

Section MapFacts.

Context {F : Type} {N : Num F}.

Implicit Types (m : balance_map F) (k : key) (v : F).

Lemma get0_set k k' v m :
  get0 k (set k' v m) = if key_eqb k k' then v else get0 k m.
Proof.
  induction m as [|[k0 v0] r IH]; simpl.
  - destruct (key_eqb k k'); reflexivity.
  - destruct (key_eqb k' k0) eqn:E0; simpl.
    + apply key_eqb_eq in E0. subst k0.
      destruct (key_eqb k k'); reflexivity.
    + destruct (key_eqb k k0) eqn:E1.
      * apply key_eqb_eq in E1. subst k0.
        rewrite key_eqb_sym, E0. reflexivity.
      * exact IH.
Qed.

Lemma has_key_set k k' v m :
  has_key k (set k' v m) = key_eqb k k' || has_key k m.
Proof.
  induction m as [|[k0 v0] r IH]; simpl.
  - now rewrite orb_false_r.
  - destruct (key_eqb k' k0) eqn:E0; simpl.
    + apply key_eqb_eq in E0. subst k0.
      destruct (key_eqb k k'); reflexivity.
    + rewrite IH. destruct (key_eqb k k0), (key_eqb k k'); reflexivity.
Qed.

(** A key that is absent reads as the default. *)
Lemma get0_absent k m : has_key k m = false -> get0 k m = zero.
Proof.
  induction m as [|[k0 v0] r IH]; simpl; [reflexivity|].
  destruct (key_eqb k k0); simpl; [discriminate | exact IH].
Qed.

End MapFacts.

(** ** The generator under [sum] *)

Section SumFacts.

Context {F : Type} {N : Num F}.

Implicit Types (p q : Transaction F -> bool) (ts : list (Transaction F)).

(** [t.get("amount", 0) for t in ts if p(t)] lists the amounts the
    specification sums. *)
Lemma generator_amounts p ts :
  map amount_or_0 (filter p ts) = amounts_where p ts.
Proof.
  induction ts as [|t r IH]; simpl; [reflexivity|].
  destruct (p t); simpl; now rewrite IH.
Qed.

(** Records the test rejects can be dropped beforehand. *)
Lemma amounts_where_filter p q ts :
  (forall t, p t = true -> q t = true) ->
  amounts_where p (filter q ts) = amounts_where p ts.
Proof.
  intro Hpq. induction ts as [|t r IH]; simpl; [reflexivity|].
  destruct (q t) eqn:Eq; simpl.
  - now rewrite IH.
  - destruct (p t) eqn:Ep; [|exact IH].
    apply Hpq in Ep. congruence.
Qed.

Lemma amounts_where_app p ts ts' :
  amounts_where p (ts ++ ts')%list
  = (amounts_where p ts ++ amounts_where p ts')%list.
Proof.
  induction ts as [|t r IH]; simpl; [reflexivity|].
  destruct (p t); simpl; now rewrite IH.
Qed.

End SumFacts.

(** ** Cash flow *)

Section CashFlowFacts.

Context {F : Type} {N : Num F}.

Implicit Types (ts : list (Transaction F)) (t : Transaction F).

Lemma income_spec ts :
  income (compute_cash_flow ts) = sum_amount_where (has_direction "income") ts.
Proof.
  unfold sum_amount_where. rewrite <- generator_amounts. reflexivity.
Qed.

Lemma expense_spec ts :
  expense (compute_cash_flow ts) = sum_amount_where (has_direction "expense") ts.
Proof.
  unfold sum_amount_where. rewrite <- generator_amounts. reflexivity.
Qed.

Lemma cash_flow_eq ts ts' :
  sum_amount_where (has_direction "income") ts
  = sum_amount_where (has_direction "income") ts' ->
  sum_amount_where (has_direction "expense") ts
  = sum_amount_where (has_direction "expense") ts' ->
  compute_cash_flow ts = compute_cash_flow ts'.
Proof.
  intros Hi He.
  pose proof (income_spec ts) as A1. pose proof (income_spec ts') as A2.
  pose proof (expense_spec ts) as B1. pose proof (expense_spec ts') as B2.
  unfold compute_cash_flow in *. simpl in *.
  rewrite A1, A2, B1, B2, Hi, He. reflexivity.
Qed.

(** Only the records tagged income or expense matter. *)
Lemma cash_flow_ignores_other_directions ts :
  compute_cash_flow
    (filter (fun t => has_direction "income" t || has_direction "expense" t) ts)
  = compute_cash_flow ts.
Proof.
  apply cash_flow_eq; unfold sum_amount_where; f_equal;
    apply amounts_where_filter; intros x Hx; rewrite Hx; auto using orb_true_r.
Qed.

(** A missing amount and an amount of 0 are the same record to the sums. *)
Lemma cash_flow_missing_amount pre post t :
  amount t = None ->
  compute_cash_flow (pre ++ t :: post)%list
  = compute_cash_flow (pre ++ with_amount (Some zero) t :: post)%list.
Proof.
  intro Ha.
  assert (G : forall d,
             amounts_where (has_direction d) (pre ++ t :: post)%list
             = amounts_where (has_direction d)
                 (pre ++ with_amount (Some zero) t :: post)%list).
  { intro d. rewrite !amounts_where_app. f_equal. simpl.
    unfold has_direction, amount_counted. simpl. now rewrite Ha. }
  apply cash_flow_eq; unfold sum_amount_where; now rewrite G.
Qed.

End CashFlowFacts.

(** C2.  Over any numbers and for every sequence of records,
    [compute_cash_flow] returns as income the sum of [amount] over the
    records whose direction is "income", as expense the sum over those whose
    direction is "expense" (the sums being Python's [sum], whatever way it
    adds), and as net their difference; dropping the records
    with any other or no direction changes nothing; a record without amount
    counts as one with amount 0; and the empty sequence gives income 0,
    expense 0 and net 0 (also in binary64, where [0 - 0] is [0]). *)
Theorem compute_cash_flow_spec :
  (forall (F : Type) (N : Num F) (ts : list (Transaction F)),
      income (compute_cash_flow ts)
      = sum_amount_where (has_direction "income") ts
      /\ expense (compute_cash_flow ts)
         = sum_amount_where (has_direction "expense") ts
      /\ net (compute_cash_flow ts)
         = sub (income (compute_cash_flow ts)) (expense (compute_cash_flow ts))
      /\ compute_cash_flow
           (filter (fun t => has_direction "income" t
                             || has_direction "expense" t) ts)
         = compute_cash_flow ts
      /\ (forall pre post t,
             amount t = None ->
             compute_cash_flow (pre ++ t :: post)%list
             = compute_cash_flow
                 (pre ++ with_amount (Some zero) t :: post)%list))
  /\ compute_cash_flow (@nil (Transaction float))
     = {| income := 0%float; expense := 0%float; net := 0%float |}
  /\ compute_cash_flow (@nil (Transaction Q))
     = {| income := 0%Q; expense := 0%Q; net := 0%Q |}.
Proof.
  split; [|split; reflexivity].
  intros F N ts.
  split; [apply income_spec|].
  split; [apply expense_spec|].
  split; [reflexivity|].
  split; [apply cash_flow_ignores_other_directions|].
  intros pre post t. apply cash_flow_missing_amount.
Qed.

(** ** Summary dispatch *)

Lemma lower_company_truthy (m : string) :
  lower m = "company" -> truthy (Some m) = true.
Proof. destruct m; simpl; [discriminate | reflexivity]. Qed.

(** The pending total reads a record through its status and amount only. *)
Lemma pending_reads_status_and_amount {F : Type} {N : Num F}
    (txns txns' : list (Transaction F)) :
  map (fun t => (status t, amount t)) txns
  = map (fun t => (status t, amount t)) txns' ->
  sum_amount_where (has_status "Pending") txns
  = sum_amount_where (has_status "Pending") txns'.
Proof.
  unfold sum_amount_where. intro H. f_equal.
  revert txns' H. induction txns as [|t r IH]; intros [|t' r'] H;
    simpl in *; try discriminate; [reflexivity|].
  injection H as Hs Ha Hr.
  assert (E1 : has_status "Pending" t = has_status "Pending" t')
    by (unfold has_status; now rewrite Hs).
  assert (E2 : amount_counted t = amount_counted t')
    by (unfold amount_counted; now rewrite Ha).
  rewrite E1, E2, (IH _ Hr). reflexivity.
Qed.

(** C6.  When the summary runs in company mode (the mode is given and
    lowercases to "company", or no mode is given and the type of the first
    fetched record does), it returns the cash flow of the fetched records
    together with a pending total equal to the sum of [amount] over the
    fetched records whose status is "Pending"; that total is the same for any
    two fetched sets that agree on status and amount record by record,
    whatever their directions and types. *)
Theorem workspace_summary_company
    (F : Type) (N : Num F)
    (get_documents : string -> option string -> outcome (list (Transaction F)))
    (workspace_id : string) (mode : option string)
    (txns : list (Transaction F)) :
  get_documents "transaction" (Some workspace_id) = Returns txns ->
  (exists m, mode = Some m /\ lower m = "company")
  \/ (truthy mode = false
      /\ exists t r m, txns = t :: r /\ type t = Some m /\ lower m = "company") ->
  workspace_summary get_documents workspace_id mode
  = Returns (CompanySummary (compute_cash_flow txns)
               (sum_amount_where (has_status "Pending") txns))
  /\ forall txns',
      map (fun t => (status t, amount t)) txns'
      = map (fun t => (status t, amount t)) txns ->
      sum_amount_where (has_status "Pending") txns'
      = sum_amount_where (has_status "Pending") txns.
Proof.
  intros Hfetch Hmode. split; [|intros; now apply pending_reads_status_and_amount].
  unfold workspace_summary. rewrite Hfetch.
  assert (Hp : py_sum (map amount_or_0
                         (filter (fun t => field_is (status t) "Pending") txns))
               = sum_amount_where (has_status "Pending") txns)
    by (unfold sum_amount_where; now rewrite <- generator_amounts).
  destruct Hmode as [(m & -> & Hm) | (Hf & t & r & m & -> & Ht & Hm)].
  - pose proof (lower_company_truthy _ Hm) as Ht.
    destruct txns as [|t r];
      repeat (rewrite ?Ht, ?Hm; cbv beta iota zeta delta [negb]);
      simpl String.eqb; cbv iota; now rewrite Hp.
  - pose proof (lower_company_truthy _ Hm) as Ht'.
    repeat (rewrite ?Hf, ?Ht, ?Ht', ?Hm; cbv beta iota zeta delta [negb]).
    simpl String.eqb. cbv iota. now rewrite Hp.
Qed.

(** ** Social balance netting: one record *)

Section StepFacts.

Context {F : Type} {N : Num F}.

Implicit Types (m : balance_map F) (t : Transaction F) (u : key)
         (bens : list (Beneficiary F)).

Lemma processed_true t :
  processed t = true ->
  field_is (type t) "social" = true
  /\ truthy (payer_id t) = true
  /\ leb (amount_or_0 t) zero = false
  /\ beneficiaries_or_nil t <> [].
Proof.
  unfold processed. intro H.
  apply andb_true_iff in H as [H1 H2]. apply negb_true_iff in H2.
  apply orb_false_iff in H2 as [H2 H4]. apply orb_false_iff in H2 as [H2 H3].
  apply negb_false_iff in H2.
  repeat split; auto.
  destruct (beneficiaries_or_nil t); [discriminate | congruence].
Qed.

(** A record the guard rejects leaves the map as it is. *)
Lemma social_step_skipped m t : processed t = false -> social_step m t = m.
Proof.
  unfold processed, social_step. intro H.
  destruct (field_is (type t) "social"); simpl in *; [|reflexivity].
  apply negb_false_iff in H. rewrite H. reflexivity.
Qed.

Lemma social_step_percentage m t :
  processed t = true ->
  field_is (split_method t) "percentage" = true ->
  social_step m t
  = let payer := payer_id t in
    let m1 := set payer (get0 payer m) m in
    let m2 := fold_left (debit_share (amount_or_0 t)) (beneficiaries_or_nil t) m1 in
    set payer (add (get0 payer m2) (amount_or_0 t)) m2.
Proof.
  unfold processed, social_step. intros H Hs.
  apply andb_true_iff in H as [H1 H2]. apply negb_true_iff in H2.
  rewrite H1, H2, Hs. reflexivity.
Qed.

Lemma social_step_equal m t :
  processed t = true ->
  field_is (split_method t) "percentage" = false ->
  social_step m t
  = let payer := payer_id t in
    let bens := beneficiaries_or_nil t in
    let per_head := div (amount_or_0 t) (of_len (List.length bens)) in
    let m1 := set payer (get0 payer m) m in
    let m2 := fold_left (debit_head per_head) bens m1 in
    set payer (add (get0 payer m2) (amount_or_0 t)) m2.
Proof.
  unfold processed, social_step. intros H Hs.
  apply andb_true_iff in H as [H1 H2]. apply negb_true_iff in H2.
  rewrite H1, H2, Hs. reflexivity.
Qed.

Lemma get0_debits u d bens m :
  get0 u (fold_left (debit d) bens m) = after_debits u d bens (get0 u m).
Proof.
  revert m. induction bens as [|b r IH]; intro m; simpl; [reflexivity|].
  rewrite IH. unfold debit. rewrite get0_set.
  destruct (key_eqb u (user_id b)) eqn:E; [|reflexivity].
  apply key_eqb_eq in E. now subst.
Qed.

Lemma has_key_debits u d bens m :
  has_key u (fold_left (debit d) bens m) = has_key u m || listed u bens.
Proof.
  revert m. induction bens as [|b r IH]; intro m; simpl.
  - now rewrite orb_false_r.
  - rewrite IH. unfold debit. rewrite has_key_set.
    destruct (key_eqb u (user_id b)), (has_key u m); reflexivity.
Qed.

(** A user the loop never names keeps its balance. *)
Lemma after_debits_unlisted u d bens bal :
  listed u bens = false -> after_debits u d bens bal = bal.
Proof.
  revert bal. induction bens as [|b r IH]; intros bal H; simpl in *;
    [reflexivity|].
  apply orb_false_iff in H as [H1 H2]. rewrite H1. now apply IH.
Qed.

(** A user the loop names once is debited once. *)
Lemma after_debits_once u d pre b post bal :
  listed u pre = false -> user_id b = u -> listed u post = false ->
  after_debits u d (pre ++ b :: post)%list bal = sub bal (d b).
Proof.
  intros Hpre Hb Hpost. revert bal.
  induction pre as [|x r IH]; intro bal; simpl in *.
  - subst u. rewrite key_eqb_refl. now apply after_debits_unlisted.
  - apply orb_false_iff in Hpre as [H1 H2]. rewrite H1. now apply IH.
Qed.

(** The balance of every user after a percentage record. *)
Lemma get0_step_percentage m t u :
  processed t = true ->
  field_is (split_method t) "percentage" = true ->
  get0 u (social_step m t)
  = let bal := after_debits u (fun b => mul (amount_or_0 t) (share_or_0 b))
                 (beneficiaries_or_nil t) (get0 u m) in
    if key_eqb u (payer_id t) then add bal (amount_or_0 t) else bal.
Proof.
  intros Hp Hs. rewrite social_step_percentage by assumption.
  cbv zeta. rewrite get0_set.
  change (debit_share (amount_or_0 t))
    with (debit (fun b => mul (amount_or_0 t) (share_or_0 b))).
  rewrite !get0_debits, !get0_set.
  destruct (key_eqb u (payer_id t)) eqn:E.
  - apply key_eqb_eq in E. subst u. now rewrite key_eqb_refl.
  - reflexivity.
Qed.

(** The balance of every user after an equal-split record. *)
Lemma get0_step_equal m t u :
  processed t = true ->
  field_is (split_method t) "percentage" = false ->
  get0 u (social_step m t)
  = let per_head := div (amount_or_0 t)
                      (of_len (List.length (beneficiaries_or_nil t))) in
    let bal := after_debits u (fun _ => per_head)
                 (beneficiaries_or_nil t) (get0 u m) in
    if key_eqb u (payer_id t) then add bal (amount_or_0 t) else bal.
Proof.
  intros Hp Hs. rewrite social_step_equal by assumption.
  cbv zeta. rewrite get0_set.
  change (debit_head (div (amount_or_0 t)
                        (of_len (List.length (beneficiaries_or_nil t)))))
    with (debit (fun _ : Beneficiary F =>
                   div (amount_or_0 t)
                     (of_len (List.length (beneficiaries_or_nil t))))).
  rewrite !get0_debits, !get0_set.
  destruct (key_eqb u (payer_id t)) eqn:E.
  - apply key_eqb_eq in E. subst u. now rewrite key_eqb_refl.
  - reflexivity.
Qed.

(** The keys after a processed record: the old ones, the payer and the
    users of the beneficiaries. *)
Lemma has_key_step m t u :
  processed t = true ->
  has_key u (social_step m t)
  = has_key u m || key_eqb u (payer_id t) || listed u (beneficiaries_or_nil t).
Proof.
  intro Hp.
  destruct (field_is (split_method t) "percentage") eqn:Hs.
  - rewrite social_step_percentage by assumption. cbv zeta.
    change (debit_share (amount_or_0 t))
      with (debit (fun b => mul (amount_or_0 t) (share_or_0 b))).
    rewrite has_key_set, has_key_debits, has_key_set.
    destruct (key_eqb u (payer_id t)), (has_key u m),
      (listed u (beneficiaries_or_nil t)); reflexivity.
  - rewrite social_step_equal by assumption. cbv zeta.
    change (debit_head (div (amount_or_0 t)
                          (of_len (List.length (beneficiaries_or_nil t)))))
      with (debit (fun _ : Beneficiary F =>
                     div (amount_or_0 t)
                       (of_len (List.length (beneficiaries_or_nil t))))).
    rewrite has_key_set, has_key_debits, has_key_set.
    destruct (key_eqb u (payer_id t)), (has_key u m),
      (listed u (beneficiaries_or_nil t)); reflexivity.
Qed.

(** The assignment [balances[payer] += amount] reads a key that is there. *)
Lemma payer_present_at_credit m t d :
  has_key (payer_id t)
    (fold_left (debit d) (beneficiaries_or_nil t)
       (set (payer_id t) (get0 (payer_id t) m) m)) = true.
Proof. now rewrite has_key_debits, has_key_set, key_eqb_refl. Qed.

End StepFacts.

(** C10.  Over any numbers where [0 <= 0] holds (binary64 and the rationals
    alike), a social record without an [amount] field reads as amount 0,
    fails the guard and is skipped: it leaves every balance map as it is,
    and the balances of a sequence are those of the sequence without it, so
    it creates no entry, not even for its payer or its beneficiaries. *)
Theorem social_record_without_amount_skipped
    (F : Type) (N : Num F) (t : Transaction F) :
  leb (@zero F N) zero = true ->
  type t = Some "social" ->
  amount t = None ->
  amount_or_0 t = zero
  /\ processed t = false
  /\ (forall m, social_step m t = m)
  /\ (forall pre post,
         compute_social_balances (pre ++ t :: post)%list
         = compute_social_balances (pre ++ post)%list).
Proof.
  intros Hz Ht Ha.
  assert (H0 : amount_or_0 t = zero) by (unfold amount_or_0; now rewrite Ha).
  assert (Hp : processed t = false).
  { unfold processed. rewrite H0, Hz, orb_true_r. simpl. apply andb_false_r. }
  repeat split; auto.
  - intro m. now apply social_step_skipped.
  - intros pre post. unfold compute_social_balances.
    rewrite !fold_left_app. simpl. now rewrite social_step_skipped.
Qed.

(** On the program's own numbers: a social record with a payer and two
    beneficiaries but no amount, between two records that are netted. *)
Lemma social_record_without_amount_skipped_witness :
  let t : Transaction float :=
    {| workspace_id := Some "w"; type := Some "social"; amount := None;
       date := None; status := Some "Pending"; direction := None;
       payer_id := Some "P"; split_method := Some "percentage";
       beneficiaries :=
         Some [ {| user_id := Some "A"; share := Some 0.5%float |};
                {| user_id := Some "B"; share := Some 0.5%float |} ] |} in
  has_key (Some "P") (compute_social_balances [t]) = false
  /\ has_key (Some "A") (compute_social_balances [t]) = false
  /\ compute_social_balances [t] = [].
Proof.
  intro t.
  destruct (@social_record_without_amount_skipped float binary64 t
              eq_refl eq_refl eq_refl) as (_ & _ & _ & H).
  specialize (H [] []). simpl app in H. rewrite H.
  repeat split; reflexivity.
Defined.

(** C4, as amended.  Over any numbers, netting a processed record with
    the percentage split after any records leaves every user [u] with the
    balance [compute_social_balances] gave it before (0 if it had none),
    less [amount * share] for each beneficiary entry that names [u], in
    order, plus the full [amount] at the end if [u] is the payer; no
    condition on the shares is involved.  The keys afterwards are the old
    ones, the payer and the beneficiaries' users.  A payer listed once among
    the beneficiaries ends at [(old - amount * own_share) + amount], which
    in exact arithmetic is a net change of [amount - amount * own_share]. *)
Theorem percentage_record_effect :
  (forall (F : Type) (N : Num F) (ts : list (Transaction F))
          (t : Transaction F),
      processed t = true ->
      field_is (split_method t) "percentage" = true ->
      (forall u,
          get0 u (compute_social_balances (ts ++ [t])%list)
          = if key_eqb u (payer_id t)
            then add (after_debits u
                        (fun b => mul (amount_or_0 t) (share_or_0 b))
                        (beneficiaries_or_nil t)
                        (get0 u (compute_social_balances ts)))
                   (amount_or_0 t)
            else after_debits u
                   (fun b => mul (amount_or_0 t) (share_or_0 b))
                   (beneficiaries_or_nil t)
                   (get0 u (compute_social_balances ts)))
      /\ (forall u,
             has_key u (compute_social_balances (ts ++ [t])%list)
             = has_key u (compute_social_balances ts)
               || key_eqb u (payer_id t)
               || listed u (beneficiaries_or_nil t))
      /\ (forall pre b post,
             beneficiaries_or_nil t = (pre ++ b :: post)%list ->
             user_id b = payer_id t ->
             listed (payer_id t) pre = false ->
             listed (payer_id t) post = false ->
             get0 (payer_id t) (compute_social_balances (ts ++ [t])%list)
             = add (sub (get0 (payer_id t) (compute_social_balances ts))
                      (mul (amount_or_0 t) (share_or_0 b)))
                 (amount_or_0 t)))
  /\ (forall (ts : list (Transaction Q)) (t : Transaction Q) pre b post,
         processed t = true ->
         field_is (split_method t) "percentage" = true ->
         beneficiaries_or_nil t = (pre ++ b :: post)%list ->
         user_id b = payer_id t ->
         listed (payer_id t) pre = false ->
         listed (payer_id t) post = false ->
         (get0 (payer_id t) (compute_social_balances (ts ++ [t])%list)
          - get0 (payer_id t) (compute_social_balances ts)
          == amount_or_0 t - amount_or_0 t * share_or_0 b)%Q).
Proof.
  assert (S : forall (F : Type) (N : Num F) (ts : list (Transaction F)) t,
             compute_social_balances (ts ++ [t])%list
             = social_step (compute_social_balances ts) t).
  { intros F N ts t. unfold compute_social_balances.
    now rewrite fold_left_app. }
  assert (G : forall (F : Type) (N : Num F) (m : balance_map F)
                     (t : Transaction F) pre b post,
             processed t = true ->
             field_is (split_method t) "percentage" = true ->
             beneficiaries_or_nil t = (pre ++ b :: post)%list ->
             user_id b = payer_id t ->
             listed (payer_id t) pre = false ->
             listed (payer_id t) post = false ->
             get0 (payer_id t) (social_step m t)
             = add (sub (get0 (payer_id t) m)
                      (mul (amount_or_0 t) (share_or_0 b)))
                 (amount_or_0 t)).
  { intros F N m t pre b post Hp Hs Hb Hu Hpre Hpost.
    rewrite get0_step_percentage by assumption. cbv zeta.
    rewrite key_eqb_refl, Hb.
    now rewrite after_debits_once. }
  split.
  - intros F N ts t Hp Hs. rewrite S. split; [|split].
    + intro u. rewrite get0_step_percentage by assumption. reflexivity.
    + intro u. now apply has_key_step.
    + intros pre b post. now apply G.
  - intros ts t pre b post Hp Hs Hb Hu Hpre Hpost.
    rewrite S, (G Q exact _ t pre b post) by assumption.
    simpl. ring.
Qed.

(** C4, as stated, fails on the program's numbers for its last part.  P has
    1e16 to its credit from an earlier record; then P pays 1, split by
    percentage between P and A at 0.5 each.  P's own share amount is 0.5,
    but [(1e16 - 0.5) + 1] rounds back to 1e16: P's balance changes by 0,
    not by [amount - own share = 0.5]. *)
Lemma percentage_net_change_counterexample :
  let earlier : list (Transaction float) :=
    [ social_record "P" (Some 1e16%float) None [beneficiary "A" None] ] in
  let t : Transaction float :=
    social_record "P" (Some 1%float) (Some "percentage")
      [beneficiary "P" (Some 0.5%float); beneficiary "A" (Some 0.5%float)] in
  processed t = true
  /\ get0 (Some "P") (compute_social_balances earlier) = 1e16%float
  /\ get0 (Some "P") (compute_social_balances (earlier ++ [t])%list)
     = 1e16%float
  /\ (get0 (Some "P") (compute_social_balances (earlier ++ [t])%list)
      - get0 (Some "P") (compute_social_balances earlier))%float
     = 0%float
  /\ (1 - 1 * 0.5)%float = 0.5%float
  /\ (get0 (Some "P") (compute_social_balances (earlier ++ [t])%list)
      - get0 (Some "P") (compute_social_balances earlier))%float
     <> (1 - 1 * 0.5)%float.
Proof.
  cbv zeta. repeat split; try reflexivity.
  intro H. apply (f_equal Prim2SF) in H. vm_compute in H. discriminate H.
Qed.

(** ** Binary64 facts the claims rest on *)

Section Binary64Facts.

Local Open Scope float_scope.



(** [net < 0] rules out [net >= 0]. *)
Lemma float_negative_not_ge (x : float) : (x <? 0) = true -> (0 <=? x) = false.
Proof.
  rewrite ltb_spec, leb_spec.
  change (Prim2SF 0) with (S754_zero false).
  destruct (Prim2SF x) as [[|]|[|]| |[|] m e]; try discriminate; reflexivity.
Qed.

End Binary64Facts.

(** ** A beneficiary without a share *)

Section ShareDefault.

Context {F : Type} {N : Num F}.





End ShareDefault.


(** ** Exact arithmetic: the total of the balance map *)

Section ExactTotals.

Local Open Scope Q_scope.

Implicit Types (m : balance_map Q) (t : Transaction Q)
         (bens : list (Beneficiary Q)).

Local Arguments sum_of_shares : simpl never.

Lemma fold_left_Qplus (l : list Q) (a : Q) :
  fold_left Qplus l a == a + fold_left Qplus l 0.
Proof.
  revert a. induction l as [|x r IH]; intro a; simpl.
  - ring.
  - rewrite (IH (a + x)), (IH (0 + x)). ring.
Qed.

Lemma py_sum_cons (x : Q) (l : list Q) : py_sum (x :: l) == x + py_sum l.
Proof.
  unfold py_sum. simpl. rewrite fold_left_Qplus. ring.
Qed.

Lemma total_cons (k : key) (v : Q) m : total ((k, v) :: m) == v + total m.
Proof. unfold total. simpl map. apply py_sum_cons. Qed.

Lemma total_nil : total (@nil (key * Q)) == 0.
Proof. reflexivity. Qed.

(** An assignment moves the total by the difference it makes to one value. *)
Lemma total_set (k : key) (v : Q) m :
  total (set k v m) == total m + v - get0 k m.
Proof.
  induction m as [|[k0 v0] r IH]; simpl.
  - rewrite total_cons, total_nil. simpl. ring.
  - destruct (key_eqb k k0).
    + rewrite !total_cons. ring.
    + rewrite !total_cons, IH. ring.
Qed.

Lemma total_debits (d : Beneficiary Q -> Q) bens m :
  total (fold_left (debit d) bens m) == total m - debited d bens.
Proof.
  revert m. induction bens as [|b r IH]; intro m; simpl.
  - ring.
  - rewrite IH. unfold debit. rewrite total_set. simpl. ring.
Qed.

Lemma debited_shares (a : Q) bens :
  debited (fun b => a * share_or_0 b) bens == a * sum_of_shares bens.
Proof.
  unfold sum_of_shares. induction bens as [|b r IH]; cbn [debited map].
  - change (@py_sum Q exact []) with 0. ring.
  - rewrite IH, py_sum_cons. ring.
Qed.

Lemma debited_per_head (h : Q) bens :
  debited (fun _ => h) bens == h * inject_Z (Z.of_nat (List.length bens)).
Proof.
  induction bens as [|b r IH].
  - simpl. ring.
  - cbn [debited List.length]. rewrite IH, Nat2Z.inj_succ. unfold Z.succ.
    rewrite inject_Z_plus. ring.
Qed.

(** A percentage record moves the total by [amount * (1 - shares)]. *)
Lemma total_step_percentage m t :
  processed t = true ->
  field_is (split_method t) "percentage" = true ->
  total (social_step m t)
  == total m + amount_or_0 t
     - amount_or_0 t * sum_of_shares (beneficiaries_or_nil t).
Proof.
  intros Hp Hs. rewrite social_step_percentage by assumption. cbv zeta.
  change (debit_share (amount_or_0 t))
    with (debit (fun b => @mul Q exact (amount_or_0 t) (share_or_0 b))).
  rewrite total_set, total_debits, total_set. simpl.
  rewrite debited_shares. ring.
Qed.

(** An equal-split record leaves the total where it was. *)
Lemma total_step_equal m t :
  processed t = true ->
  field_is (split_method t) "percentage" = false ->
  total (social_step m t) == total m.
Proof.
  intros Hp Hs. rewrite social_step_equal by assumption. cbv zeta.
  change (debit_head ?h) with (debit (fun _ : Beneficiary Q => h)).
  rewrite total_set, total_debits, total_set. simpl.
  rewrite debited_per_head.
  apply processed_true in Hp as (_ & _ & _ & Hne).
  destruct (beneficiaries_or_nil t) as [|b r]; [congruence|].
  assert (Hn : ~ inject_Z (Z.of_nat (List.length (b :: r))) == 0).
  { unfold Qeq. simpl. lia. }
  field. exact Hn.
Qed.

End ExactTotals.

(** ** The zero-sum property *)

(** Netting a sequence of records whose percentage splits are partitions
    leaves the total of any starting map where it was. *)
Lemma total_invariant (ts : list (Transaction Q)) (m : balance_map Q) :
  (forall t, In t ts ->
             processed t = true ->
             field_is (split_method t) "percentage" = true ->
             (sum_of_shares (beneficiaries_or_nil t) == 1)%Q) ->
  (total (fold_left social_step ts m) == total m)%Q.
Proof.
  revert m. induction ts as [|t r IH]; intros m H; simpl; [reflexivity|].
  rewrite IH by (intros; apply H; auto; now right).
  destruct (processed t) eqn:Hp.
  - destruct (field_is (split_method t) "percentage") eqn:Hs.
    + rewrite total_step_percentage by assumption.
      rewrite (H t (or_introl eq_refl) Hp Hs). ring.
    + now apply total_step_equal.
  - rewrite social_step_skipped by assumption. reflexivity.
Qed.

(** C1, as amended.  In exact arithmetic (amounts, shares and balances as
    rationals): for every sequence of records in which each record that is
    netted with the percentage split has shares summing to 1, the values of
    the map returned by [compute_social_balances] sum to exactly 0; in
    particular for a single netted record, for the equal and for the
    percentage split. *)
Theorem social_balances_sum_to_zero_exact (ts : list (Transaction Q)) :
  (forall t, In t ts ->
             processed t = true ->
             field_is (split_method t) "percentage" = true ->
             (sum_of_shares (beneficiaries_or_nil t) == 1)%Q) ->
  (total (compute_social_balances ts) == 0)%Q.
Proof.
  intro H. unfold compute_social_balances.
  rewrite total_invariant by exact H. reflexivity.
Qed.

(** Two netted records (an equal split three ways and a 60/40 percentage
    split), a record of another type and a social record without payer. *)
Lemma social_balances_sum_to_zero_exact_witness :
  (total (compute_social_balances
            [ social_record "P" (Some 90) None
                [beneficiary "A" None; beneficiary "B" None; beneficiary "C" None];
              social_record "A" (Some 100) (Some "percentage")
                [beneficiary "P" (Some (6 # 10)); beneficiary "B" (Some (4 # 10))];
              cash_record "home" (Some 12) None "Cleared" (Some "expense");
              social_record "" (Some 5) None [beneficiary "A" None] ])
   == 0)%Q.
Proof.
  apply social_balances_sum_to_zero_exact.
  intros t [<-|[<-|[<-|[<-|[]]]]] Hp Hs; vm_compute in Hs; try discriminate.
  vm_compute. reflexivity.
Defined.

(** C1, as stated, fails on the program's own numbers: one well-formed
    record, 10.0 paid by P and split equally among six, debits each of them
    1.6666666666666667, and the seven balances sum to -2^-51, not to 0.
    The sum of the seven values taken as exact rationals is -2^-51 too, so
    the order and the rounding of the summation play no part. *)
Lemma social_balances_sum_binary64_counterexample :
  let t : Transaction float :=
    social_record "P" (Some 10%float) (Some "equal")
      [beneficiary "A" None; beneficiary "B" None; beneficiary "C" None;
       beneficiary "D" None; beneficiary "E" None; beneficiary "G" None] in
  processed t = true
  /\ total (compute_social_balances [t]) = (- 0x1p-51)%float
  /\ total (compute_social_balances [t]) <> 0%float
  /\ (total (map (fun kv => (fst kv, exact_value (snd kv)))
               (compute_social_balances [t]))
      == - (1 # 2 ^ 51))%Q.
Proof.
  cbv zeta. split; [reflexivity|]. split; [reflexivity|]. split.
  - intro H. apply (f_equal Prim2SF) in H. vm_compute in H. discriminate H.
  - vm_compute. reflexivity.
Qed.

(** ** Over-allocated percentage splits *)

(** An amount that passes the guard, added to [0.0], is itself. *)
Lemma float_zero_add (a : float) : (a <=? 0)%float = false -> (0 + a)%float = a.
Proof.
  rewrite leb_spec. intro Hpos.
  apply Prim2SF_inj. rewrite add_spec.
  change (Prim2SF 0) with (S754_zero false) in *.
  destruct (Prim2SF a) as [[|]|[|]| |[|] m e]; try discriminate; reflexivity.
Qed.

Lemma exact_guard_positive (t : Transaction Q) :
  processed t = true -> (0 < amount_or_0 t)%Q.
Proof.
  intro Hp. apply processed_true in Hp as (_ & _ & Hpos & _).
  simpl in Hpos. apply Qnot_le_lt. intro Hle.
  apply Qle_bool_iff in Hle. congruence.
Qed.

(** C3, as stated, fails: 100 paid by P, split by percentage between A and
    B at 0.6 each (shares summing to 1.2).  P is credited 100 and A and B
    are debited 60 each, so the map sums to -20, which is
    [amount - amount * 1.2]; the claimed total [amount * 0.8] is 80.  The
    same holds in binary64 and in exact arithmetic. *)
Lemma over_allocation_total_counterexample :
  (let t : Transaction float :=
     social_record "P" (Some 100%float) (Some "percentage")
       [beneficiary "A" (Some 0.6%float); beneficiary "B" (Some 0.6%float)] in
   sum_of_shares (beneficiaries_or_nil t) = 1.2%float
   /\ compute_social_balances [t]
      = [(Some "P", 100%float); (Some "A", (-60)%float); (Some "B", (-60)%float)]
   /\ total (compute_social_balances [t]) = (-20)%float
   /\ total (compute_social_balances [t]) <> (100 * 0.8)%float)
  /\ (let t : Transaction Q :=
        social_record "P" (Some 100%Q) (Some "percentage")
          [beneficiary "A" (Some (6 # 10)); beneficiary "B" (Some (6 # 10))] in
      (sum_of_shares (beneficiaries_or_nil t) == 12 # 10)%Q
      /\ (total (compute_social_balances [t]) == -20)%Q
      /\ ~ (total (compute_social_balances [t]) == 100 * (8 # 10))%Q).
Proof.
  cbv zeta. split.
  - split; [reflexivity|]. split; [reflexivity|]. split; [reflexivity|].
    intro H. apply (f_equal Prim2SF) in H. vm_compute in H. discriminate H.
  - split; [vm_compute; reflexivity|]. split; [vm_compute; reflexivity|].
    intro H. vm_compute in H. discriminate H.
Qed.

(** C3, as amended.  For a single netted record with the percentage split,
    over any numbers: every user ends at 0 less [amount * share] for each
    beneficiary entry that names it, plus the full [amount] if it is the
    payer; so a payer who is not a beneficiary ends at [0 + amount] (which
    in binary64 is the amount itself) and a beneficiary listed once and
    distinct from the payer ends at [0 - amount * share].  In exact
    arithmetic, when the shares sum to 1.2 the map sums to
    [amount - amount * 1.2], that is [-0.2 * amount], which is not
    [0.8 * amount] and not 0. *)
Theorem over_allocation_effect :
  (forall (F : Type) (N : Num F) (t : Transaction F),
      processed t = true ->
      field_is (split_method t) "percentage" = true ->
      (forall u,
          get0 u (compute_social_balances [t])
          = if key_eqb u (payer_id t)
            then add (after_debits u
                        (fun b => mul (amount_or_0 t) (share_or_0 b))
                        (beneficiaries_or_nil t) zero)
                   (amount_or_0 t)
            else after_debits u
                   (fun b => mul (amount_or_0 t) (share_or_0 b))
                   (beneficiaries_or_nil t) zero)
      /\ (listed (payer_id t) (beneficiaries_or_nil t) = false ->
          get0 (payer_id t) (compute_social_balances [t])
          = add zero (amount_or_0 t))
      /\ (forall pre b post,
             beneficiaries_or_nil t = (pre ++ b :: post)%list ->
             user_id b <> payer_id t ->
             listed (user_id b) pre = false ->
             listed (user_id b) post = false ->
             get0 (user_id b) (compute_social_balances [t])
             = sub zero (mul (amount_or_0 t) (share_or_0 b))))
  /\ (forall t : Transaction float,
         processed t = true ->
         field_is (split_method t) "percentage" = true ->
         listed (payer_id t) (beneficiaries_or_nil t) = false ->
         get0 (payer_id t) (compute_social_balances [t]) = amount_or_0 t)
  /\ (forall t : Transaction Q,
         processed t = true ->
         field_is (split_method t) "percentage" = true ->
         (sum_of_shares (beneficiaries_or_nil t) == 12 # 10)%Q ->
         (total (compute_social_balances [t])
          == amount_or_0 t - amount_or_0 t * (12 # 10))%Q
         /\ (total (compute_social_balances [t])
             == - (2 # 10) * amount_or_0 t)%Q
         /\ ~ (total (compute_social_balances [t])
               == amount_or_0 t * (8 # 10))%Q
         /\ ~ (total (compute_social_balances [t]) == 0)%Q).
Proof.
  assert (G : forall (F : Type) (N : Num F) (t : Transaction F),
             processed t = true ->
             field_is (split_method t) "percentage" = true ->
             listed (payer_id t) (beneficiaries_or_nil t) = false ->
             get0 (payer_id t) (compute_social_balances [t])
             = add zero (amount_or_0 t)).
  { intros F N t Hp Hs Hl. change (compute_social_balances [t])
      with (social_step [] t).
    rewrite get0_step_percentage by assumption. cbv zeta.
    rewrite key_eqb_refl. now rewrite after_debits_unlisted. }
  split; [|split].
  - intros F N t Hp Hs. split; [|split; [now apply G|]].
    + intro u. change (compute_social_balances [t]) with (social_step [] t).
      rewrite get0_step_percentage by assumption. reflexivity.
    + intros pre b post Hb Hne Hpre Hpost.
      change (compute_social_balances [t]) with (social_step [] t).
      rewrite get0_step_percentage by assumption. cbv zeta.
      apply key_eqb_neq in Hne. rewrite Hne, Hb.
      now rewrite after_debits_once.
  - intros t Hp Hs Hl. rewrite G by assumption.
    apply processed_true in Hp as (_ & _ & Hpos & _).
    now apply float_zero_add.
  - intros t Hp Hs Hsum.
    pose proof (exact_guard_positive t Hp) as Hpos.
    assert (E : (total (compute_social_balances [t])
                 == amount_or_0 t - amount_or_0 t * (12 # 10))%Q).
    { change (compute_social_balances [t]) with (social_step [] t).
      rewrite total_step_percentage by assumption.
      rewrite Hsum, total_nil. ring. }
    repeat split.
    + exact E.
    + rewrite E. ring.
    + rewrite E. intro H. lra.
    + rewrite E. intro H. lra.
Qed.

(** ** The fail-safe endpoints *)

Section FailSafe.

Context {F : Type} {N : Num F}.

Variable get_documents : string -> option string -> outcome (list (Transaction F)).



(** On records none of which holds a [None] date, the comprehension of the
    source is the specification's window. *)
Lemma recent_window now (fetched : list (Transaction F)) :
  existsb null_date fetched = false ->
  recent (now - thirty_days) fetched
  = Returns (filter (in_last_30_days now) fetched).
Proof.
  induction fetched as [|t r IH]; simpl; [reflexivity|].
  intro H. apply orb_false_iff in H as [Ht Hr]. rewrite (IH Hr).
  assert (E : in_last_30_days now t
              = match date t with
                | Some (Some d) => (now - thirty_days <=? d)%Z
                | Some None => false
                | None => true
                end) by reflexivity.
  rewrite E. unfold null_date in Ht.
  destruct (date t) as [[d|]|]; try discriminate Ht.
  - now rewrite Z.geb_leb.
  - now rewrite Z.geb_leb, Z.leb_refl.
Qed.

(** One [None] date anywhere among the fetched records stops it. *)
Lemma recent_null since (fetched : list (Transaction F)) :
  existsb null_date fetched = true ->
  recent since fetched = Raises (OtherException "TypeError").
Proof.
  induction fetched as [|t r IH]; simpl; [discriminate|].
  intro H. unfold null_date in H at 1.
  destruct (date t) as [[d|]|]; try reflexivity; simpl in H;
    now rewrite (IH H).
Qed.

Lemma financial_advisor_try_returns env now wid fetched :
  simulate_quota env = false ->
  get_documents "transaction" (if truthy wid then wid else None)
  = Returns fetched ->
  existsb null_date fetched = false ->
  financial_advisor_try get_documents env now wid
  = let cash := compute_cash_flow (filter (in_last_30_days now) fetched) in
    Returns {| advisor_demo := false;
               advice := if leb zero (net cash)
                         then advice_on_track else advice_cut;
               net30 := Some (net cash) |}.
Proof.
  unfold financial_advisor_try. intros -> -> Hn. cbv zeta.
  now rewrite (recent_window now fetched Hn).
Qed.

Lemma financial_advisor_try_null env now wid fetched :
  simulate_quota env = false ->
  get_documents "transaction" (if truthy wid then wid else None)
  = Returns fetched ->
  existsb null_date fetched = true ->
  financial_advisor_try get_documents env now wid
  = Raises (OtherException "TypeError").
Proof.
  unfold financial_advisor_try. intros -> -> Hn. cbv zeta.
  now rewrite (recent_null _ fetched Hn).
Qed.

(** The advisor on a storage read that returns. *)
Lemma financial_advisor_returns env now wid fetched :
  simulate_quota env = false ->
  get_documents "transaction" (if truthy wid then wid else None)
  = Returns fetched ->
  financial_advisor get_documents env now wid
  = if existsb null_date fetched
    then Returns advisor_fallback
    else let cash :=
           compute_cash_flow (filter (in_last_30_days now) fetched) in
         Returns {| advisor_demo := false;
                    advice := if leb zero (net cash)
                              then advice_on_track else advice_cut;
                    net30 := Some (net cash) |}.
Proof.
  intros Hq Hg. unfold financial_advisor.
  destruct (existsb null_date fetched) eqn:Hn.
  - now rewrite (financial_advisor_try_null env now wid Hq Hg Hn).
  - now rewrite (financial_advisor_try_returns env now wid Hq Hg Hn).
Qed.

End FailSafe.



(** C7, as stated, fails: with the quota flag unset, one fetched expense of
    50 whose date is [None], as [create_transaction] stores a record sent
    without date, makes the window test raise [TypeError]; the advisor
    answers the demo payload, not [{demo: false, advice: <warning>,
    net30: -50}]. *)
Lemma advisor_null_date_counterexample :
  financial_advisor
    (fixed_store
       (Returns [ cash_record "home" (Some 50%float) (Some None) "Pending"
                    (Some "expense") ]))
    None 1800000000000000 (Some "acme")
  = Returns {| advisor_demo := true; advice := advice_limit; net30 := None |}
  /\ financial_advisor
       (fixed_store
          (Returns [ cash_record "home" (Some 50%float) (Some None) "Pending"
                       (Some "expense") ]))
       None 1800000000000000 (Some "acme")
     <> Returns {| advisor_demo := false; advice := advice_cut;
                   net30 := Some (-50)%float |}.
Proof. split; [reflexivity | discriminate]. Qed.

(** C7, as amended.  With the quota flag unset and a storage read that
    returns records none of which holds a [None] date, over any numbers the
    advisor computes the cash flow of exactly the fetched records dated at
    or after [now - 30 days], a record without date field included, and
    answers [{demo: false, advice, net30: net}]; on the program's numbers,
    and in exact arithmetic, a negative net makes the advice the
    cut-non-essentials warning.  If a fetched record holds a [None] date the
    answer is the demo payload. *)
Theorem advisor_window_and_warning :
  (forall (F : Type) (N : Num F)
          (get_documents : string -> option string
                           -> outcome (list (Transaction F)))
          env now workspace_id fetched,
      simulate_quota env = false ->
      get_documents "transaction"
        (if truthy workspace_id then workspace_id else None)
      = Returns fetched ->
      (existsb null_date fetched = false ->
       (forall t : Transaction F,
           date t = None -> in_last_30_days now t = true)
       /\ financial_advisor get_documents env now workspace_id
          = let cash :=
              compute_cash_flow (filter (in_last_30_days now) fetched) in
            Returns {| advisor_demo := false;
                       advice := if leb zero (net cash)
                                 then advice_on_track else advice_cut;
                       net30 := Some (net cash) |})
      /\ (existsb null_date fetched = true ->
          financial_advisor get_documents env now workspace_id
          = Returns advisor_fallback))
  /\ (forall (get_documents : string -> option string
                              -> outcome (list (Transaction float)))
             env now workspace_id fetched,
         simulate_quota env = false ->
         get_documents "transaction"
           (if truthy workspace_id then workspace_id else None)
         = Returns fetched ->
         existsb null_date fetched = false ->
         let cash := compute_cash_flow (filter (in_last_30_days now) fetched) in
         (net cash <? 0)%float = true ->
         financial_advisor get_documents env now workspace_id
         = Returns {| advisor_demo := false; advice := advice_cut;
                      net30 := Some (net cash) |})
  /\ (forall (get_documents : string -> option string
                              -> outcome (list (Transaction Q)))
             env now workspace_id fetched,
         simulate_quota env = false ->
         get_documents "transaction"
           (if truthy workspace_id then workspace_id else None)
         = Returns fetched ->
         existsb null_date fetched = false ->
         let cash := compute_cash_flow (filter (in_last_30_days now) fetched) in
         (net cash < 0)%Q ->
         financial_advisor get_documents env now workspace_id
         = Returns {| advisor_demo := false; advice := advice_cut;
                      net30 := Some (net cash) |}).
Proof.
  split; [|split].
  - intros F N g env now wid fetched Hq Hg. split.
    + intro Hn. split.
      * intros t Ht. unfold in_last_30_days. now rewrite Ht.
      * now rewrite (financial_advisor_returns g env now wid Hq Hg), Hn.
    + intro Hn.
      now rewrite (financial_advisor_returns g env now wid Hq Hg), Hn.
  - intros g env now wid fetched Hq Hg Hn cash Hneg.
    rewrite (financial_advisor_returns g env now wid Hq Hg), Hn.
    cbv zeta. fold cash.
    change (@leb float binary64 zero (net cash)) with (0 <=? net cash)%float.
    now rewrite (float_negative_not_ge Hneg).
  - intros g env now wid fetched Hq Hg Hn cash Hneg.
    rewrite (financial_advisor_returns g env now wid Hq Hg), Hn.
    cbv zeta. fold cash.
    change (@leb Q exact zero (net cash)) with (Qle_bool 0 (net cash)).
    destruct (Qle_bool 0 (net cash)) eqn:E; [|reflexivity].
    apply Qle_bool_iff in E. lra.
Qed.

(** C8.  Two receipt scans under the same quota flag and on the same day
    answer alike whenever both uploads can be read, whatever their names,
    content types and bytes: with the quota simulated the answer is the demo
    payload (amount 50.00, demo true), and it is so for every upload,
    readable or not; otherwise it is the fixed mock (merchant
    "Parsed Merchant", amount 42.5, demo false). *)
Theorem receipt_scan_ignores_upload
    (env : option string) (today : string) (f1 f2 : UploadFile)
    (c1 c2 : list Byte.byte) :
  read f1 = Returns c1 ->
  read f2 = Returns c2 ->
  receipt_scan env today f1 = receipt_scan env today f2
  /\ (simulate_quota env = true ->
      forall f,
        receipt_scan env today f
        = Returns {| merchant := "Demo Store"; receipt_amount := 50;
                     receipt_date := today; demo := true;
                     message := Some quota_message |})
  /\ (simulate_quota env = false ->
      receipt_scan env today f1
      = Returns {| merchant := "Parsed Merchant"; receipt_amount := 42.5;
                   receipt_date := today; demo := false; message := None |}).
Proof.
  intros H1 H2. unfold receipt_scan, receipt_scan_try.
  rewrite H1, H2.
  destruct (simulate_quota env); repeat split; try discriminate; reflexivity.
Qed.

(** Two uploads that differ in name and bytes, with and without quota. *)
Lemma receipt_scan_ignores_upload_witness :
  receipt_scan (Some "TRUE") "2026-11-04"
    (upload "a.png" (Returns [Byte.x89; Byte.x50; Byte.x4e; Byte.x47]))
  = receipt_scan (Some "TRUE") "2026-11-04"
      (upload "b.jpg" (Returns [Byte.xff; Byte.xd8]))
  /\ receipt_scan None "2026-11-04"
       (upload "a.png" (Returns [Byte.x89; Byte.x50; Byte.x4e; Byte.x47]))
     = receipt_scan None "2026-11-04" (upload "b.jpg" (Returns [])).
Proof.
  split.
  - exact (proj1 (@receipt_scan_ignores_upload (Some "TRUE") "2026-11-04"
                    (upload "a.png" (Returns [Byte.x89; Byte.x50; Byte.x4e; Byte.x47]))
                    (upload "b.jpg" (Returns [Byte.xff; Byte.xd8]))
                    _ _ eq_refl eq_refl)).
  - exact (proj1 (@receipt_scan_ignores_upload None "2026-11-04"
                    (upload "a.png" (Returns [Byte.x89; Byte.x50; Byte.x4e; Byte.x47]))
                    (upload "b.jpg" (Returns []))
                    _ _ eq_refl eq_refl)).
Defined.

(** ** The theorems at concrete inputs *)

(** A company-mode summary asked for as "Company": 100 and 40 are pending,
    whatever their direction and type; 7 is cleared. *)
Lemma workspace_summary_company_witness :
  workspace_summary
    (fixed_store
       (Returns
          [ cash_record "company" (Some 100%float) None "Pending" (Some "income");
            cash_record "home" (Some 40%float) None "Pending" None;
            cash_record "company" (Some 7%float) None "Cleared" (Some "expense") ]))
    "acme" (Some "Company")
  = Returns (CompanySummary
               {| income := 100%float; expense := 7%float; net := 93%float |}
               140%float).
Proof.
  refine (eq_trans
            (proj1 (@workspace_summary_company float binary64
                      (fixed_store (Returns _)) "acme" (Some "Company") _
                      eq_refl
                      (or_introl (ex_intro _ "Company" (conj eq_refl eq_refl)))))
            _).
  reflexivity.
Defined.

(** P has 10 to its credit from an earlier record, then pays 100 and is
    listed once, at a quarter: P ends at (10 - 25) + 100. *)
Lemma percentage_record_effect_witness :
  get0 (Some "P")
    (compute_social_balances
       [ social_record "P" (Some 10%float) None [beneficiary "A" None];
         social_record "P" (Some 100%float) (Some "percentage")
           [beneficiary "P" (Some 0.25%float);
            beneficiary "A" (Some 0.75%float)] ])
  = 85%float.
Proof.
  destruct (proj1 percentage_record_effect float binary64
              [social_record "P" (Some 10%float) None [beneficiary "A" None]]
              (social_record "P" (Some 100%float) (Some "percentage")
                 [beneficiary "P" (Some 0.25%float);
                  beneficiary "A" (Some 0.75%float)])
              eq_refl eq_refl) as (_ & _ & H).
  refine (eq_trans (H [] (beneficiary "P" (Some 0.25%float))
                      [beneficiary "A" (Some 0.75%float)]
                      eq_refl eq_refl eq_refl eq_refl) _).
  reflexivity.
Defined.

(** 50 paid by P, split 0.7 and 0.5: the map sums to 50 - 60. *)
Lemma over_allocation_effect_witness :
  (total (compute_social_balances
            [ social_record "P" (Some 50) (Some "percentage")
                [beneficiary "A" (Some (7 # 10)); beneficiary "B" (Some (5 # 10))] ])
   == - (2 # 10) * 50)%Q.
Proof.
  refine (proj1 (proj2 (proj2 (proj2 over_allocation_effect)
                          (social_record "P" (Some 50%Q) (Some "percentage")
                             [beneficiary "A" (Some (7 # 10));
                              beneficiary "B" (Some (5 # 10))])
                          eq_refl eq_refl _))).
  vm_compute. reflexivity.
Defined.



(** The sample ledger: the net over the window is -60. *)
Lemma advisor_window_and_warning_witness :
  financial_advisor (fixed_store (Returns (sample_ledger 1800000000000000)))
    None 1800000000000000 (Some "acme")
  = Returns {| advisor_demo := false; advice := advice_cut;
               net30 := Some (-60)%float |}.
Proof.
  exact (proj1 (proj2 advisor_window_and_warning)
           (fixed_store (Returns (sample_ledger 1800000000000000)))
           None 1800000000000000%Z (Some "acme")
           (sample_ledger 1800000000000000)
           eq_refl eq_refl eq_refl eq_refl).
Defined.


(** A ledger with a record that has no amount: it counts as amount 0. *)
Lemma compute_cash_flow_spec_witness :
  compute_cash_flow
    [ cash_record "home" (Some 30%float) None "Cleared" (Some "income");
      cash_record "home" None None "Cleared" (Some "expense");
      cash_record "home" (Some 12%float) None "Cleared" (Some "expense");
      cash_record "home" (Some 99%float) None "Cleared" None ]
  = {| income := 30%float; expense := 12%float; net := 18%float |}.
Proof.
  refine (eq_trans
            (proj2 (proj2 (proj2 (proj2
               (proj1 compute_cash_flow_spec float binary64 []))))
               [cash_record "home" (Some 30%float) None "Cleared" (Some "income")]
               [cash_record "home" (Some 12%float) None "Cleared" (Some "expense");
                cash_record "home" (Some 99%float) None "Cleared" None]
               (cash_record "home" None None "Cleared" (Some "expense"))
               eq_refl) _).
  reflexivity.
Defined.

(** * Further properties of the engine *)

(** ** The keys of the balance map *)

Section KeyFacts.

Context {F : Type} {N : Num F}.

Implicit Types (m : balance_map F) (t : Transaction F) (u k : key)
         (bens : list (Beneficiary F)).

Lemma has_key_In k m : has_key k m = true <-> In k (keys m).
Proof.
  induction m as [|[k0 v0] r IH]; simpl.
  - split; [discriminate | contradiction].
  - rewrite orb_true_iff, IH, key_eqb_eq. intuition congruence.
Qed.

(** An assignment keeps the keys where they are and appends a new one. *)
Lemma keys_set k v m :
  keys (set k v m) = (keys m ++ if has_key k m then [] else [k])%list.
Proof.
  induction m as [|[k0 v0] r IH]; simpl; [reflexivity|].
  destruct (key_eqb k k0) eqn:E; simpl.
  - now rewrite app_nil_r.
  - now rewrite IH.
Qed.

Lemma extends_refl m : extends m m.
Proof. split; [exists []; now rewrite app_nil_r | auto]. Qed.

Lemma extends_trans m1 m2 m3 : extends m1 m2 -> extends m2 m3 -> extends m1 m3.
Proof.
  intros [[a Ha] Na] [[b Hb] Nb]. split; [|auto].
  exists (a ++ b)%list. now rewrite Hb, Ha, app_assoc.
Qed.

Lemma extends_set k v m : extends m (set k v m).
Proof.
  split.
  - eexists. apply keys_set.
  - intro Hn. rewrite keys_set. destruct (has_key k m) eqn:E.
    + now rewrite app_nil_r.
    + apply NoDup_app; [exact Hn | repeat constructor; intros [] | ].
      intros x Hx [<-|[]]. apply has_key_In in Hx. congruence.
Qed.

Lemma extends_debits d bens m : extends m (fold_left (debit d) bens m).
Proof.
  revert m. induction bens as [|b r IH]; intro m; simpl.
  - apply extends_refl.
  - eapply extends_trans; [|apply IH]. apply extends_set.
Qed.

Lemma extends_step m t : extends m (social_step m t).
Proof.
  destruct (processed t) eqn:Hp.
  - destruct (field_is (split_method t) "percentage") eqn:Hs.
    + rewrite social_step_percentage by assumption. cbv zeta.
      change (debit_share (amount_or_0 t))
        with (debit (fun b => mul (amount_or_0 t) (share_or_0 b))).
      eapply extends_trans; [apply extends_set|].
      eapply extends_trans; [apply extends_debits|]. apply extends_set.
    + rewrite social_step_equal by assumption. cbv zeta.
      change (debit_head ?h) with (debit (fun _ : Beneficiary F => h)).
      eapply extends_trans; [apply extends_set|].
      eapply extends_trans; [apply extends_debits|]. apply extends_set.
  - rewrite social_step_skipped by assumption. apply extends_refl.
Qed.

Lemma extends_steps ts m : extends m (fold_left social_step ts m).
Proof.
  revert m. induction ts as [|t r IH]; intro m; simpl.
  - apply extends_refl.
  - eapply extends_trans; [apply extends_step | apply IH].
Qed.

Lemma has_key_steps u ts m :
  has_key u (fold_left social_step ts m)
  = has_key u m || existsb (involves u) ts.
Proof.
  revert m. induction ts as [|t r IH]; intro m; simpl.
  - now rewrite orb_false_r.
  - rewrite IH. destruct (processed t) eqn:Hp.
    + assert (E : involves u t
                  = key_eqb u (payer_id t)
                    || listed u (beneficiaries_or_nil t))
        by (unfold involves; now rewrite Hp).
      rewrite E, has_key_step by assumption.
      destruct (has_key u m), (key_eqb u (payer_id t)),
        (listed u (beneficiaries_or_nil t)); reflexivity.
    + assert (E : involves u t = false)
        by (unfold involves; now rewrite Hp).
      rewrite E, social_step_skipped by assumption. reflexivity.
Qed.

Lemma steps_skip_unprocessed ts m :
  fold_left social_step (filter processed ts) m = fold_left social_step ts m.
Proof.
  revert m. induction ts as [|t r IH]; intro m; simpl; [reflexivity|].
  destruct (processed t) eqn:Hp; simpl.
  - apply IH.
  - rewrite social_step_skipped by assumption. apply IH.
Qed.

End KeyFacts.

(** X1.  The map [compute_social_balances] returns never holds a key twice,
    and netting more records only appends keys: the keys of the balances of
    a sequence stay in front, in the same order, in the balances of any
    longer sequence. *)
Theorem social_balances_keys_stable
    (F : Type) (N : Num F) (ts more : list (Transaction F)) :
  NoDup (keys (compute_social_balances ts))
  /\ exists added,
      keys (compute_social_balances (ts ++ more)%list)
      = (keys (compute_social_balances ts) ++ added)%list.
Proof.
  split.
  - apply (extends_steps ts []). constructor.
  - unfold compute_social_balances. rewrite fold_left_app.
    apply (extends_steps more).
Qed.

(** X2.  A user has an entry in the returned map exactly when some record
    that is netted names the user as its payer or as one of its
    beneficiaries; users who appear only in skipped records, or in none,
    have no entry. *)
Theorem social_balances_has_key
    (F : Type) (N : Num F) (ts : list (Transaction F)) (u : key) :
  has_key u (compute_social_balances ts) = existsb (involves u) ts.
Proof. unfold compute_social_balances. now rewrite has_key_steps. Qed.

(** X3.  The records the guard rejects (another type, no payer, an amount
    that is [<= 0], no beneficiaries) play no part: the balances of a
    sequence are those of its netted records alone, wherever the others
    stand. *)
Theorem social_balances_skip_unprocessed
    (F : Type) (N : Num F) (ts : list (Transaction F)) :
  compute_social_balances (filter processed ts) = compute_social_balances ts.
Proof. unfold compute_social_balances. apply steps_skip_unprocessed. Qed.

(** ** One record, from an empty map *)

Section Layout.

Context {F : Type} {N : Num F}.

Implicit Types (m : balance_map F) (t : Transaction F) (u k : key)
         (bens : list (Beneficiary F)).

Lemma set_absent k v m : has_key k m = false -> set k v m = (m ++ [(k, v)])%list.
Proof.
  induction m as [|[k0 v0] r IH]; simpl; [reflexivity|].
  intro H. apply orb_false_iff in H as [H1 H2]. rewrite H1. now rewrite IH.
Qed.

Lemma has_key_app k m m' : has_key k (m ++ m')%list = has_key k m || has_key k m'.
Proof.
  induction m as [|[k0 v0] r IH]; simpl; [reflexivity|].
  now rewrite IH, orb_assoc.
Qed.

(** Beneficiaries who are all new to the map, each listed once, are
    appended in order, each at [0 - charge]. *)
Lemma debits_fresh (d : Beneficiary F -> F) bens m :
  NoDup (map (@user_id F) bens) ->
  (forall b, In b bens -> has_key (user_id b) m = false) ->
  fold_left (debit d) bens m
  = (m ++ map (fun b => (user_id b, sub zero (d b))) bens)%list.
Proof.
  revert m. induction bens as [|b r IH]; intros m Hn Hf; simpl.
  - now rewrite app_nil_r.
  - inversion Hn as [|? ? Hb Hr]; subst.
    assert (Hm : has_key (user_id b) m = false) by (apply Hf; now left).
    unfold debit at 2.
    rewrite (@get0_absent F N _ _ Hm), (@set_absent _ _ _ Hm).
    rewrite IH; [now rewrite <- app_assoc | exact Hr |].
    intros b' Hb'. rewrite has_key_app. simpl.
    rewrite (Hf b' (or_intror Hb')), orb_false_r. simpl.
    apply key_eqb_neq. intro E. apply Hb. rewrite <- E. now apply in_map.
Qed.

Lemma fold_left_ext_in {A B : Type} (f g : A -> B -> A) (l : list B) (a : A) :
  (forall x b, In b l -> f x b = g x b) -> fold_left f l a = fold_left g l a.
Proof.
  revert a. induction l as [|b r IH]; intros a H; simpl; [reflexivity|].
  rewrite (H a b (or_introl eq_refl)). apply IH.
  intros x b' Hb'. apply H. now right.
Qed.

(** Both branches of the loop body, in one. *)
Lemma social_step_processed m t :
  processed t = true ->
  social_step m t
  = let payer := payer_id t in
    let m1 := set payer (get0 payer m) m in
    let m2 := fold_left (debit (charge t)) (beneficiaries_or_nil t) m1 in
    set payer (add (get0 payer m2) (amount_or_0 t)) m2.
Proof.
  intro Hp. cbv zeta.
  destruct (field_is (split_method t) "percentage") eqn:Hs.
  - rewrite social_step_percentage by assumption. cbv zeta.
    rewrite (fold_left_ext_in (debit (charge t)) (debit_share (amount_or_0 t)));
      [reflexivity|].
    intros x b _. unfold debit, debit_share, charge. now rewrite Hs.
  - rewrite social_step_equal by assumption. cbv zeta.
    rewrite (fold_left_ext_in (debit (charge t))
               (debit_head (div (amount_or_0 t)
                              (of_len (List.length (beneficiaries_or_nil t))))));
      [reflexivity|].
    intros x b _. unfold debit, debit_head, charge. now rewrite Hs.
Qed.

Lemma listed_false u bens b :
  listed u bens = false -> In b bens -> key_eqb (user_id b) u = false.
Proof.
  unfold listed. intros H Hb. rewrite key_eqb_sym.
  destruct (key_eqb u (user_id b)) eqn:E; [|reflexivity].
  assert (existsb (fun b0 => key_eqb u (user_id b0)) bens = true)
    by (apply existsb_exists; eauto).
  congruence.
Qed.

Lemma fold_debit_head_users (h : F) bens bens' m :
  map (@user_id F) bens = map (@user_id F) bens' ->
  fold_left (debit_head h) bens m = fold_left (debit_head h) bens' m.
Proof.
  revert bens' m. induction bens as [|b r IH]; intros [|b' r'] m H;
    simpl in *; try discriminate; [reflexivity|].
  injection H as Hb Hr. unfold debit_head at 2 4. rewrite Hb. now apply IH.
Qed.

End Layout.

(** X4.  A single netted record whose beneficiaries are distinct users,
    none of them the payer, gives the map that lists the payer first, at
    [0 + amount], and then each beneficiary in the order of the record, at
    [0 - amount * share] under the percentage split and at
    [0 - amount / count] otherwise. *)
Theorem single_record_balances
    (F : Type) (N : Num F) (t : Transaction F) :
  processed t = true ->
  NoDup (map (@user_id F) (beneficiaries_or_nil t)) ->
  listed (payer_id t) (beneficiaries_or_nil t) = false ->
  compute_social_balances [t]
  = (payer_id t, add zero (amount_or_0 t))
      :: map (fun b => (user_id b, sub zero (charge t b)))
           (beneficiaries_or_nil t).
Proof.
  intros Hp Hn Hl. change (compute_social_balances [t]) with (social_step [] t).
  rewrite social_step_processed by assumption. cbv zeta.
  cbn [get0 set]. rewrite debits_fresh; [|exact Hn|].
  - cbn [app get0 set]. now rewrite key_eqb_refl.
  - intros b Hb. cbn [has_key]. rewrite orb_false_r.
    eapply listed_false; eassumption.
Qed.

(** The specification's examples: 90 among A, B and C, and 100 split 0.6
    and 0.4, both paid by P. *)
Lemma single_record_balances_witness :
  compute_social_balances
    [ social_record "P" (Some 90%float) (Some "equal")
        [beneficiary "A" None; beneficiary "B" None; beneficiary "C" None] ]
  = [ (Some "P", 90%float); (Some "A", (-30)%float);
      (Some "B", (-30)%float); (Some "C", (-30)%float) ]
  /\ compute_social_balances
       [ social_record "P" (Some 100%float) (Some "percentage")
           [beneficiary "A" (Some 0.6%float); beneficiary "B" (Some 0.4%float)] ]
     = [ (Some "P", 100%float); (Some "A", (-60)%float);
         (Some "B", (-40)%float) ].
Proof.
  split.
  - refine (eq_trans
              (@single_record_balances float binary64
                 (social_record "P" (Some 90%float) (Some "equal")
                    [beneficiary "A" None; beneficiary "B" None;
                     beneficiary "C" None])
                 eq_refl _ eq_refl) _); [|reflexivity].
    repeat constructor; simpl; intuition discriminate.
  - refine (eq_trans
              (@single_record_balances float binary64
                 (social_record "P" (Some 100%float) (Some "percentage")
                    [beneficiary "A" (Some 0.6%float);
                     beneficiary "B" (Some 0.4%float)])
                 eq_refl _ eq_refl) _); [|reflexivity].
    repeat constructor; simpl; intuition discriminate.
Defined.

(** X5.  Only the exact string "percentage" selects the percentage split:
    under any other [split_method] (absent, "equal", "Percentage", ...) the
    record is netted as an equal split, and then the shares are not read:
    two records that list the same users in the same order are netted
    alike, whatever shares they carry. *)
Theorem equal_split_reads_users_only
    (F : Type) (N : Num F) (m : balance_map F) (t : Transaction F)
    (bens' : list (Beneficiary F)) :
  field_is (split_method t) "percentage" = false ->
  map (@user_id F) bens' = map (@user_id F) (beneficiaries_or_nil t) ->
  social_step m t = social_step m (with_split_method (Some "equal") t)
  /\ social_step m t = social_step m (with_beneficiaries bens' t).
Proof.
  intros Hs Hu. split.
  - unfold social_step.
    change (field_is (split_method (with_split_method (Some "equal") t))
              "percentage") with false.
    rewrite Hs. reflexivity.
  - unfold social_step.
    change (beneficiaries_or_nil (with_beneficiaries bens' t)) with bens'.
    change (type (with_beneficiaries bens' t)) with (type t).
    change (payer_id (with_beneficiaries bens' t)) with (payer_id t).
    change (split_method (with_beneficiaries bens' t)) with (split_method t).
    change (amount_or_0 (with_beneficiaries bens' t)) with (amount_or_0 t).
    rewrite Hs. cbv zeta.
    assert (L : List.length bens' = List.length (beneficiaries_or_nil t))
      by (rewrite <- (length_map (@user_id F)), Hu; apply length_map).
    assert (E : match beneficiaries_or_nil t with [] => true | _ :: _ => false end
                = match bens' with [] => true | _ :: _ => false end)
      by (destruct (beneficiaries_or_nil t), bens'; simpl in L;
          congruence || reflexivity).
    rewrite E, L.
    rewrite (@fold_debit_head_users F N _ bens' (beneficiaries_or_nil t) _ Hu).
    reflexivity.
Qed.

(** "Percentage" with a capital is netted as an equal split, and the
    shares 0.9 and 0.1 count for nothing. *)
Lemma equal_split_reads_users_only_witness :
  social_step []
    (social_record "P" (Some 10%float) (Some "Percentage")
       [beneficiary "A" (Some 0.9%float); beneficiary "B" (Some 0.1%float)])
  = [ (Some "P", 10%float); (Some "A", (-5)%float); (Some "B", (-5)%float) ].
Proof.
  refine (eq_trans
            (proj2 (@equal_split_reads_users_only float binary64 []
                      (social_record "P" (Some 10%float) (Some "Percentage")
                         [beneficiary "A" (Some 0.9%float);
                          beneficiary "B" (Some 0.1%float)])
                      [beneficiary "A" None; beneficiary "B" None]
                      eq_refl eq_refl)) _).
  reflexivity.
Defined.

(** ** Exact arithmetic: who owes what *)

Section ExactNetting.

Local Open Scope Q_scope.

Implicit Types (m : balance_map Q) (t : Transaction Q) (u : key)
         (bens : list (Beneficiary Q)).

Lemma after_debits_exact u (d : Beneficiary Q -> Q) bens (bal : Q) :
  after_debits u d bens bal == bal - owed_in u d bens.
Proof.
  revert bal. induction bens as [|b r IH]; intro bal; simpl.
  - ring.
  - rewrite IH. destruct (key_eqb u (user_id b)); simpl; ring.
Qed.

(** One record moves the balance of [u] by its net effect on [u], whatever
    the map held before. *)
Lemma get0_step_exact u m t :
  get0 u (social_step m t) == get0 u m + net_effect u t.
Proof.
  unfold net_effect. destruct (processed t) eqn:Hp.
  - rewrite social_step_processed by assumption. cbv zeta.
    rewrite get0_set. destruct (key_eqb u (payer_id t)) eqn:E.
    + apply key_eqb_eq in E. subst u.
      change (@add Q exact) with Qplus.
      rewrite get0_debits, get0_set, key_eqb_refl, after_debits_exact. ring.
    + rewrite get0_debits, get0_set, E, after_debits_exact. ring.
  - rewrite social_step_skipped by assumption. ring.
Qed.

Lemma get0_steps_exact u ts m :
  get0 u (fold_left social_step ts m) == get0 u m + netting u ts.
Proof.
  revert m. induction ts as [|t r IH]; intro m; simpl.
  - ring.
  - rewrite IH, get0_step_exact. ring.
Qed.

Lemma netting_app u ts ts' :
  netting u (ts ++ ts')%list == netting u ts + netting u ts'.
Proof.
  induction ts as [|t r IH]; simpl; [ring | rewrite IH; ring].
Qed.

Lemma netting_perm u ts ts' :
  Permutation ts ts' -> netting u ts == netting u ts'.
Proof.
  induction 1 as [|x l l' _ IH|x y l|l l' l'' _ IH1 _ IH2]; simpl.
  - reflexivity.
  - now rewrite IH.
  - ring.
  - now rewrite IH1.
Qed.

(** One record moves the total by its imbalance. *)
Lemma total_step_exact m t :
  total (social_step m t) == total m + imbalance t.
Proof.
  unfold imbalance. destruct (processed t) eqn:Hp.
  - destruct (field_is (split_method t) "percentage") eqn:Hs; cbn [andb].
    + rewrite total_step_percentage by assumption. ring.
    + rewrite total_step_equal by assumption. ring.
  - rewrite social_step_skipped by assumption. cbn [andb]. ring.
Qed.

Lemma total_steps_exact ts m :
  total (fold_left social_step ts m) == total m + total_imbalance ts.
Proof.
  revert m. induction ts as [|t r IH]; intro m; simpl.
  - ring.
  - rewrite IH, total_step_exact. ring.
Qed.

Lemma py_sum_app (l l' : list Q) : py_sum (l ++ l')%list == py_sum l + py_sum l'.
Proof.
  induction l as [|x r IH].
  - change (@py_sum Q exact []) with 0. simpl app. ring.
  - simpl app. rewrite !py_sum_cons, IH. ring.
Qed.

Lemma py_sum_perm (l l' : list Q) : Permutation l l' -> py_sum l == py_sum l'.
Proof.
  induction 1 as [|x l l' _ IH|x y l|l l' l'' _ IH1 _ IH2].
  - reflexivity.
  - now rewrite !py_sum_cons, IH.
  - rewrite !py_sum_cons. ring.
  - now rewrite IH1.
Qed.

Lemma amounts_where_perm (p : Transaction Q -> bool) ts ts' :
  Permutation ts ts' ->
  Permutation (amounts_where p ts) (amounts_where p ts').
Proof.
  induction 1 as [|x l l' _ IH|x y l|l l' l'' _ IH1 _ IH2]; simpl.
  - constructor.
  - destruct (p x); [now constructor | exact IH].
  - destruct (p x), (p y); try reflexivity. constructor.
  - now transitivity (amounts_where p l').
Qed.

End ExactNetting.

(** X6.  In exact arithmetic the balance of a user is what the netted
    records say the user paid less what they charge the user: the sum, over
    the netted records, of the amount when the user is the payer, minus the
    charge of every beneficiary entry that names the user (a user with no
    entry reading as 0). *)
Theorem social_balance_is_paid_minus_owed
    (ts : list (Transaction Q)) (u : key) :
  (get0 u (compute_social_balances ts) == netting u ts)%Q.
Proof.
  unfold compute_social_balances. rewrite get0_steps_exact. simpl. ring.
Qed.

(** X7.  In exact arithmetic the netting does not depend on the order of
    the records: two sequences that are rearrangements of each other give
    every user the same balance.  And the balances of any two batches
    netted together are the sums of their balances netted apart. *)
Theorem social_balances_order_independent
    (ts ts' : list (Transaction Q)) (u : key) :
  (Permutation ts ts' ->
   (get0 u (compute_social_balances ts)
    == get0 u (compute_social_balances ts'))%Q)
  /\ (get0 u (compute_social_balances (ts ++ ts')%list)
      == get0 u (compute_social_balances ts)
         + get0 u (compute_social_balances ts'))%Q.
Proof.
  unfold compute_social_balances.
  rewrite !get0_steps_exact. simpl get0. split.
  - intro Hperm. now rewrite (netting_perm u Hperm).
  - rewrite netting_app. ring.
Qed.

(** Two records netted in either order. *)
Lemma social_balances_order_independent_witness :
  (get0 (Some "A")
     (compute_social_balances
        [ social_record "P" (Some 90) None
            [beneficiary "A" None; beneficiary "B" None; beneficiary "P" None];
          social_record "A" (Some 10) (Some "percentage")
            [beneficiary "P" (Some (3 # 10)); beneficiary "B" (Some (7 # 10))] ])
   == get0 (Some "A")
        (compute_social_balances
           [ social_record "A" (Some 10) (Some "percentage")
               [beneficiary "P" (Some (3 # 10)); beneficiary "B" (Some (7 # 10))];
             social_record "P" (Some 90) None
               [beneficiary "A" None; beneficiary "B" None; beneficiary "P" None] ]))%Q.
Proof.
  apply (proj1 (social_balances_order_independent _ _ (Some "A"))).
  apply perm_swap.
Defined.

(** X8.  In exact arithmetic the values of the returned map sum to the
    amounts left unallotted by the netted percentage records: each one
    contributes [amount * (1 - sum of its shares)], negative when the shares
    exceed 1, and every other record contributes nothing. *)
Theorem social_balances_total_is_imbalance (ts : list (Transaction Q)) :
  (total (compute_social_balances ts) == total_imbalance ts)%Q.
Proof.
  unfold compute_social_balances. rewrite total_steps_exact, total_nil. ring.
Qed.

(** X9.  In exact arithmetic the cash flow does not depend on the order of
    the records: two sequences that are rearrangements of each other have
    the same income, expense and net.  And the cash flow of any two batches
    together is the sum of their cash flows: income, expense and net
    alike. *)
Theorem cash_flow_order_independent (ts ts' : list (Transaction Q)) :
  (Permutation ts ts' ->
   (income (compute_cash_flow ts) == income (compute_cash_flow ts')
    /\ expense (compute_cash_flow ts) == expense (compute_cash_flow ts')
    /\ net (compute_cash_flow ts) == net (compute_cash_flow ts'))%Q)
  /\ (income (compute_cash_flow (ts ++ ts')%list)
      == income (compute_cash_flow ts) + income (compute_cash_flow ts')
      /\ expense (compute_cash_flow (ts ++ ts')%list)
         == expense (compute_cash_flow ts) + expense (compute_cash_flow ts')
      /\ net (compute_cash_flow (ts ++ ts')%list)
         == net (compute_cash_flow ts) + net (compute_cash_flow ts'))%Q.
Proof.
  assert (A : forall d,
             (sum_amount_where (has_direction d) (ts ++ ts')%list
              == sum_amount_where (has_direction d) ts
                 + sum_amount_where (has_direction d) ts')%Q).
  { intro d. unfold sum_amount_where.
    now rewrite amounts_where_app, py_sum_app. }
  assert (Hnet : forall l : list (Transaction Q),
             net (compute_cash_flow l)
             = (income (compute_cash_flow l) - expense (compute_cash_flow l))%Q)
    by reflexivity.
  rewrite !Hnet, !income_spec, !expense_spec. split.
  - intro Hperm.
    assert (P : forall d,
               (sum_amount_where (has_direction d) ts
                == sum_amount_where (has_direction d) ts')%Q).
    { intro d. unfold sum_amount_where.
      apply py_sum_perm. now apply amounts_where_perm. }
    rewrite (P "income"), (P "expense"). repeat split; reflexivity.
  - rewrite !A. repeat split; try reflexivity; ring.
Qed.

(** Three records, shuffled. *)
Lemma cash_flow_order_independent_witness :
  (net (compute_cash_flow
          [ cash_record "home" (Some (1 # 3)) None "Cleared" (Some "income");
            cash_record "home" (Some 2) None "Cleared" (Some "expense");
            cash_record "home" (Some (5 # 7)) None "Pending" (Some "income") ])
   == net (compute_cash_flow
             [ cash_record "home" (Some (5 # 7)) None "Pending" (Some "income");
               cash_record "home" (Some (1 # 3)) None "Cleared" (Some "income");
               cash_record "home" (Some 2) None "Cleared" (Some "expense") ]))%Q.
Proof.
  apply (proj1 (cash_flow_order_independent _ _)).
  apply Permutation_sym, (Permutation_cons_app [_; _] []). reflexivity.
Defined.

(** * Further properties of the endpoints *)

(** ** The summary in its other modes *)

(** The dispatch of the summary, by the mode in effect. *)
Lemma workspace_summary_dispatch
    (F : Type) (N : Num F)
    (get_documents : string -> option string -> outcome (list (Transaction F)))
    (workspace_id : string) (mode : option string)
    (txns : list (Transaction F)) :
  get_documents "transaction" (Some workspace_id) = Returns txns ->
  workspace_summary get_documents workspace_id mode
  = Returns
      (if String.eqb (mode_in_effect mode txns) "company"
       then CompanySummary (compute_cash_flow txns)
              (sum_amount_where (has_status "Pending") txns)
       else if String.eqb (mode_in_effect mode txns) "social"
            then SocialSummary (compute_social_balances txns)
            else HomeSummary (compute_cash_flow txns)).
Proof.
  intro Hg. unfold workspace_summary. rewrite Hg.
  assert (Hp : py_sum (map amount_or_0
                         (filter (fun t => field_is (status t) "Pending") txns))
               = sum_amount_where (has_status "Pending") txns)
    by (unfold sum_amount_where; now rewrite <- generator_amounts).
  cbv zeta. rewrite Hp. unfold mode_in_effect.
  destruct mode as [[|c s]|]; destruct txns as [|t r];
    try (destruct (type t) as [[|c' s']|]);
    cbv beta iota zeta delta [truthy negb];
    repeat match goal with
           | |- context [String.eqb (lower (String ?a ?b)) ?x] =>
             is_var b; destruct (String.eqb (lower (String a b)) x)
           end;
    reflexivity.
Qed.

(** X10.  When the storage read returns, the summary is decided by the mode
    in effect (the mode asked for, else the type of the first fetched
    record, else "home"; compared in lowercase): "company" gives the cash
    flow and the pending total, "social" gives the balances of the fetched
    records, and every other mode, known or not, gives the cash flow as the
    home budget. *)
Theorem workspace_summary_by_mode
    (F : Type) (N : Num F)
    (get_documents : string -> option string -> outcome (list (Transaction F)))
    (workspace_id : string) (mode : option string)
    (txns : list (Transaction F)) :
  get_documents "transaction" (Some workspace_id) = Returns txns ->
  workspace_summary get_documents workspace_id mode
  = Returns
      (if String.eqb (mode_in_effect mode txns) "company"
       then CompanySummary (compute_cash_flow txns)
              (sum_amount_where (has_status "Pending") txns)
       else if String.eqb (mode_in_effect mode txns) "social"
            then SocialSummary (compute_social_balances txns)
            else HomeSummary (compute_cash_flow txns)).
Proof. apply workspace_summary_dispatch. Qed.

(** A workspace whose first record is social, asked without a mode. *)
Lemma workspace_summary_by_mode_witness :
  workspace_summary
    (fixed_store
       (Returns
          [ social_record "P" (Some 90%float) None
              [beneficiary "A" None; beneficiary "B" None; beneficiary "C" None] ]))
    "trip" None
  = Returns (SocialSummary
               [ (Some "P", 90%float); (Some "A", (-30)%float);
                 (Some "B", (-30)%float); (Some "C", (-30)%float) ]).
Proof.
  refine (eq_trans
            (@workspace_summary_by_mode float binary64
               (fixed_store (Returns _)) "trip" None _ eq_refl) _).
  reflexivity.
Defined.

(** X11.  The summary has no handler of its own: a storage read that
    raises makes the summary raise the same exception.  When the read
    returns, two spellings of a mode that differ only in the case of their
    ASCII letters give the same summary; and with no mode and no records the
    summary is the home budget with income, expense and net all 0. *)
Theorem workspace_summary_edges :
  (forall (F : Type) (N : Num F)
          (get_documents : string -> option string
                           -> outcome (list (Transaction F)))
          workspace_id mode e,
      get_documents "transaction" (Some workspace_id) = Raises e ->
      workspace_summary get_documents workspace_id mode = Raises e)
  /\ (forall (F : Type) (N : Num F)
             (get_documents : string -> option string
                              -> outcome (list (Transaction F)))
             workspace_id m m' txns,
         get_documents "transaction" (Some workspace_id) = Returns txns ->
         lower m = lower m' ->
         workspace_summary get_documents workspace_id (Some m)
         = workspace_summary get_documents workspace_id (Some m'))
  /\ (forall (get_documents : string -> option string
                              -> outcome (list (Transaction float)))
             workspace_id mode,
         get_documents "transaction" (Some workspace_id) = Returns [] ->
         truthy mode = false ->
         workspace_summary get_documents workspace_id mode
         = Returns (HomeSummary {| income := 0%float; expense := 0%float;
                                   net := 0%float |})).
Proof.
  split; [|split].
  - intros F N g wid mode e Hg. unfold workspace_summary. now rewrite Hg.
  - intros F N g wid m m' txns Hg Hl.
    rewrite !(@workspace_summary_dispatch F N g wid _ txns Hg).
    assert (E : mode_in_effect (Some m) txns = mode_in_effect (Some m') txns).
    { unfold mode_in_effect.
      destruct m as [|c s], m' as [|c' s']; try reflexivity;
        try discriminate Hl; exact Hl. }
    now rewrite E.
  - intros g wid mode Hg Hm.
    rewrite (@workspace_summary_dispatch float binary64 g wid _ [] Hg).
    unfold mode_in_effect. rewrite Hm. reflexivity.
Qed.

Lemma workspace_summary_edges_witness :
  workspace_summary
    (fixed_store (F := float) (Raises (OtherException "AutoReconnect")))
    "acme" (Some "company")
  = Raises (OtherException "AutoReconnect")
  /\ workspace_summary (fixed_store (F := float) (Returns (sample_ledger 0)))
       "acme" (Some "SOCIAL")
     = workspace_summary (fixed_store (Returns (sample_ledger 0)))
         "acme" (Some "social")
  /\ workspace_summary (fixed_store (F := float) (Returns [])) "acme" (Some "")
     = Returns (HomeSummary {| income := 0%float; expense := 0%float;
                               net := 0%float |}).
Proof.
  split; [|split].
  - exact (proj1 workspace_summary_edges float binary64
             (fixed_store (Raises (OtherException "AutoReconnect")))
             "acme" (Some "company") _ eq_refl).
  - exact (proj1 (proj2 workspace_summary_edges) float binary64
             (fixed_store (Returns (sample_ledger 0)))
             "acme" "SOCIAL" "social" _ eq_refl eq_refl).
  - exact (proj2 (proj2 workspace_summary_edges)
             (fixed_store (Returns [])) "acme" (Some "") eq_refl eq_refl).
Defined.

(** ** The quota flag *)

Section QuotaFlag.

Local Open Scope char_scope.

Lemma lower_ascii_t c : lower_ascii c = "t" -> c = "t" \/ c = "T".
Proof.
  destruct c as [[|] [|] [|] [|] [|] [|] [|] [|]];
    vm_compute; intro H; solve [discriminate H | auto].
Qed.

Lemma lower_ascii_r c : lower_ascii c = "r" -> c = "r" \/ c = "R".
Proof.
  destruct c as [[|] [|] [|] [|] [|] [|] [|] [|]];
    vm_compute; intro H; solve [discriminate H | auto].
Qed.

Lemma lower_ascii_u c : lower_ascii c = "u" -> c = "u" \/ c = "U".
Proof.
  destruct c as [[|] [|] [|] [|] [|] [|] [|] [|]];
    vm_compute; intro H; solve [discriminate H | auto].
Qed.

Lemma lower_ascii_e c : lower_ascii c = "e" -> c = "e" \/ c = "E".
Proof.
  destruct c as [[|] [|] [|] [|] [|] [|] [|] [|]];
    vm_compute; intro H; solve [discriminate H | auto].
Qed.

Lemma lower_true (v : string) :
  lower v = "true"%string <-> In v quota_spellings.
Proof.
  split.
  - destruct v as [|c1 [|c2 [|c3 [|c4 [|c5 v]]]]]; simpl; try discriminate.
    intro H. injection H as H1 H2 H3 H4.
    apply lower_ascii_t in H1. apply lower_ascii_r in H2.
    apply lower_ascii_u in H3. apply lower_ascii_e in H4.
    destruct H1, H2, H3, H4; subst; simpl; tauto.
  - intro H. simpl in H.
    repeat (destruct H as [<-|H]; [reflexivity|]). contradiction.
Qed.

End QuotaFlag.

(** X13.  The quota is simulated exactly when [SIMULATE_AI_QUOTA] is set to
    one of the sixteen spellings of "true" in upper and lower case; unset,
    or set to anything else ("1", "yes", " true"), it is not. *)
Theorem simulate_quota_spellings (env : option string) :
  simulate_quota env = true <-> exists v, env = Some v /\ In v quota_spellings.
Proof.
  unfold simulate_quota. rewrite String.eqb_eq. split.
  - destruct env as [v|]; [|discriminate].
    intro H. exists v. split; [reflexivity|]. now apply lower_true.
  - intros (v & -> & H). now apply lower_true.
Qed.

(** ** The receipt scan's demo flag *)

(** X14.  Whenever the receipt scan returns, its [demo] flag tells the
    fallback from the mock: [demo] is false exactly when the quota is not
    simulated and the upload could be read, a message is present exactly
    when [demo] is true, and the date is the day of the call. *)
Theorem receipt_scan_demo_flag
    (env : option string) (today : string) (file : UploadFile)
    (r : ReceiptResponse) :
  receipt_scan env today file = Returns r ->
  (demo r = false
   <-> simulate_quota env = false /\ exists content, read file = Returns content)
  /\ (demo r = true <-> message r <> None)
  /\ receipt_date r = today.
Proof.
  unfold receipt_scan, receipt_scan_try.
  destruct (simulate_quota env);
    [|destruct (read file) as [content|[code d|n|n]];
      [| destruct (code =? 429)%Z | |]];
    simpl; intro H; try discriminate H; injection H as <-; simpl;
    repeat split; intros; try discriminate; try reflexivity; eauto;
    try match goal with
        | K : _ /\ _ |- _ => destruct K as [K1 [c K2]]; discriminate
        end.
Qed.

Lemma receipt_scan_demo_flag_witness :
  demo (receipt_demo "2026-11-04" generic_message) = true
  <-> message (receipt_demo "2026-11-04" generic_message) <> None.
Proof.
  exact (proj1 (proj2 (@receipt_scan_demo_flag None "2026-11-04"
                         (upload "r.png" (Raises (OtherException "OSError")))
                         (receipt_demo "2026-11-04" generic_message)
                         eq_refl))).
Defined.

(** ** The advisor's window *)

Lemma window_empty {F : Type} (now : Z) (fetched : list (Transaction F)) :
  (forall t, In t fetched ->
             exists d, date t = Some (Some d) /\ (d < now - thirty_days)%Z) ->
  existsb null_date fetched = false
  /\ filter (in_last_30_days now) fetched = [].
Proof.
  induction fetched as [|t r IH]; intro H; simpl; [split; reflexivity|].
  destruct (H t (or_introl eq_refl)) as (d & Hd & Hlt).
  destruct IH as [IH1 IH2]; [intros t' Ht'; apply H; now right|].
  assert (E1 : null_date t = false) by (unfold null_date; now rewrite Hd).
  assert (E2 : in_last_30_days now t = false).
  { unfold in_last_30_days. rewrite Hd.
    destruct (Z.leb_spec (now - thirty_days) d); [lia | reflexivity]. }
  rewrite E1, E2. split; assumption.
Qed.

(** X15.  With the quota flag unset, the advisor's answer depends on the
    fetched records only through whether one of them holds a [None] date
    and through those in the 30-day window: two storage reads that agree on
    both, whatever else they return outside the window, get the same
    answer. *)
Theorem advisor_reads_window_only
    (F : Type) (N : Num F)
    (g g' : string -> option string -> outcome (list (Transaction F)))
    (env : option string) (now : Z) (workspace_id : option string)
    (fetched fetched' : list (Transaction F)) :
  simulate_quota env = false ->
  g "transaction" (if truthy workspace_id then workspace_id else None)
  = Returns fetched ->
  g' "transaction" (if truthy workspace_id then workspace_id else None)
  = Returns fetched' ->
  existsb null_date fetched = existsb null_date fetched' ->
  filter (in_last_30_days now) fetched = filter (in_last_30_days now) fetched' ->
  financial_advisor g env now workspace_id
  = financial_advisor g' env now workspace_id.
Proof.
  intros Hq Hg Hg' Hn Hw.
  rewrite (financial_advisor_returns g env now workspace_id Hq Hg).
  rewrite (financial_advisor_returns g' env now workspace_id Hq Hg').
  now rewrite Hn, Hw.
Qed.

(** The sample ledger with and without its 31-day-old income. *)
Lemma advisor_reads_window_only_witness :
  financial_advisor (fixed_store (Returns (sample_ledger 1800000000000000)))
    None 1800000000000000 None
  = financial_advisor
      (fixed_store (Returns (tl (sample_ledger 1800000000000000))))
      None 1800000000000000 None.
Proof.
  exact (@advisor_reads_window_only float binary64
           (fixed_store (Returns (sample_ledger 1800000000000000)))
           (fixed_store (Returns (tl (sample_ledger 1800000000000000))))
           None 1800000000000000%Z None _ _
           eq_refl eq_refl eq_refl eq_refl eq_refl).
Defined.

(** X16.  On the program's numbers, with the quota flag unset and a storage
    read that returns records none of which holds a [None] date: the answer
    carries [demo: false] and the net over the window, and the advice is the
    on-track message exactly when [net >= 0] holds of that net (so a NaN net
    gets the warning).  When every fetched record is dated before the
    window the answer is on track with [net30] 0; and an empty
    [workspace_id] is read as none, the advisor then asking the store for
    all workspaces. *)
Theorem advisor_on_track
    (get_documents : string -> option string
                     -> outcome (list (Transaction float)))
    (env : option string) (now : Z) (workspace_id : option string)
    (fetched : list (Transaction float)) :
  simulate_quota env = false ->
  get_documents "transaction"
    (if truthy workspace_id then workspace_id else None)
  = Returns fetched ->
  (existsb null_date fetched = false ->
   exists r,
     financial_advisor get_documents env now workspace_id = Returns r
     /\ advisor_demo r = false
     /\ net30 r
        = Some (net (compute_cash_flow (filter (in_last_30_days now) fetched)))
     /\ (advice r = advice_on_track
         <-> (0 <=? net (compute_cash_flow
                           (filter (in_last_30_days now) fetched)))%float
             = true))
  /\ ((forall t, In t fetched ->
                 exists d, date t = Some (Some d)
                           /\ (d < now - thirty_days)%Z) ->
      financial_advisor get_documents env now workspace_id
      = Returns {| advisor_demo := false; advice := advice_on_track;
                   net30 := Some 0%float |})
  /\ financial_advisor get_documents env now (Some "")
     = financial_advisor get_documents env now None.
Proof.
  intros Hq Hg.
  assert (E := financial_advisor_returns get_documents env now workspace_id
                 Hq Hg).
  split; [|split].
  - intro Hn. rewrite E, Hn. cbv zeta.
    eexists. split; [reflexivity|]. split; [reflexivity|].
    split; [reflexivity|]. cbn [advice].
    change (@leb float binary64 zero) with (PrimFloat.leb 0).
    destruct (PrimFloat.leb 0 _); split; intro H;
      try reflexivity; discriminate H.
  - intro Hold. destruct (window_empty now fetched Hold) as [Hn Hw].
    rewrite E, Hn. cbv zeta. rewrite Hw. reflexivity.
  - reflexivity.
Qed.

(** A ledger whose only record is older than the window. *)
Lemma advisor_on_track_witness :
  financial_advisor
    (fixed_store
       (Returns [ cash_record "home" (Some 75%float) (Some (Some 0%Z))
                    "Cleared" (Some "expense") ]))
    None 1800000000000000 (Some "acme")
  = Returns {| advisor_demo := false; advice := advice_on_track;
               net30 := Some 0%float |}.
Proof.
  refine (proj1 (proj2 (@advisor_on_track
                          (fixed_store (Returns _))
                          None 1800000000000000%Z (Some "acme")
                          [ cash_record "home" (Some 75%float)
                              (Some (Some 0%Z)) "Cleared" (Some "expense") ]
                          eq_refl eq_refl)) _).
  intros t [<-|[]]. exists 0%Z. split; reflexivity.
Defined.

(** ** The guard on binary64 amounts *)



